(** * Teacher routes and batch projections of the admin console

    A shallow embedding of
    - [src/backend/routes/teachers.route.js]: the Express handlers
      [GET /], [GET /:teacherId], [PUT /:id], [POST /] and [DELETE /:id]
      of the teacher router, run against a record store holding the
      Teacher, Batch, Student and Sales collections;
    - [src/frontend/src/pages/admin/Batches.tsx]: [getBatchStatus] and
      the two revenue cells [(batch.revenue * 0.2).toFixed(2)] and
      [(batch.revenue * 0.3).toFixed(2)].

    JavaScript numbers are IEEE-754 binary64 values; they are modelled
    with the executable specification of the Standard Library
    ([SpecFloat], precision 53, infinity exponent 1024). *)

From Stdlib Require Import ZArith QArith Qround List String Ascii Bool Lia.
From Stdlib Require Import Floats.SpecFloat.
Import ListNotations.

Local Open Scope Z_scope.

(** ** JavaScript numbers *)

Module Number.

Definition number : Type := spec_float.

Definition prec : Z := 53.
Definition emax : Z := 1024.

(** [a + b] and [a * b] on numbers. *)
Definition add (a b : number) : number := SFadd prec emax a b.
Definition mul (a b : number) : number := SFmul prec emax a b.

(** The number denoted by an integer literal. *)
Definition of_Z (z : Z) : number := binary_normalize prec emax z 0 false.

(** The number nearest to the fraction [n / d] (ties to even), with
    sign [neg]: the value of a decimal literal such as [0.3], and what
    [parseFloat] returns on the digits [n] scaled by a power of ten. *)
Definition of_fraction (neg : bool) (n : N) (d : positive) : number :=
  match n with
  | N0 => S754_zero neg
  | Npos p =>
      let '(q, e, l) := SFdiv_core_binary prec emax (Zpos p) 0 (Zpos d) 0 in
      binary_round_aux prec emax neg q e l
  end.

(** The literals of the source. *)
Definition zero : number := S754_zero false.
Definition lit_0_2 : number := of_fraction false 2 10.
Definition lit_0_3 : number := of_fraction false 3 10.

(** [x.toFixed(2)], ECMAScript Number.prototype.toFixed with
    fractionDigits 2.  For a finite [x] of magnitude below [10^21] the
    result is the sign, the decimal digits of the integer [n] for which
    [n / 100 - |x|] is as close to zero as possible (the larger [n] when
    there are two), with a point before the last two digits.  Otherwise
    the result is [Number::toString(x)]. *)
Inductive fixed : Type :=
| FixedDigits (neg : bool) (n : N)
| FixedToString (x : number).

(** The integer [n] of step 10 of toFixed for [|x| = m * 2^e]:
    [floor (100 * m * 2^e + 1/2)]. *)
Definition hundredths (m : positive) (e : Z) : Z :=
  match e with
  | Zneg k => (200 * Zpos m + 2 ^ Zpos k) / 2 ^ (Zpos k + 1)
  | _ => 100 * Zpos m * 2 ^ e
  end.

(** [m * 2^e >= 10^21]. *)
Definition at_least_1e21 (m : positive) (e : Z) : bool :=
  match e with
  | Zneg k => 10 ^ 21 * 2 ^ Zpos k <=? Zpos m
  | _ => 10 ^ 21 <=? Zpos m * 2 ^ e
  end.

Definition toFixed2 (x : number) : fixed :=
  match x with
  | S754_zero _ => FixedDigits false 0
  | S754_finite s m e =>
      if at_least_1e21 m e then FixedToString x
      else FixedDigits s (Z.to_N (hundredths m e))
  | _ => FixedToString x
  end.

(** Decimal digits of a natural number, most significant first. *)
Definition digit_char (d : N) : ascii := ascii_of_N (48 + d).

Fixpoint digits_fuel (fuel : nat) (n : N) (acc : string) : string :=
  match fuel with
  | O => acc
  | S fuel' =>
      let acc' := String (digit_char (n mod 10)%N) acc in
      if (n / 10 =? 0)%N then acc' else digits_fuel fuel' (n / 10)%N acc'
  end.

Definition digits (n : N) : string :=
  digits_fuel (S (N.to_nat (N.log2 n))) n EmptyString.

(** The text of a [FixedDigits] result: at least one digit before the
    point, exactly two after it. *)
Definition fixed_text (neg : bool) (n : N) : string :=
  let sign := if neg then "-"%string else EmptyString in
  let frac := (n mod 100)%N in
  (sign ++ digits (n / 100)%N ++ "."
        ++ String (digit_char (frac / 10)%N)
             (String (digit_char (frac mod 10)%N) EmptyString))%string.

(** [parseFloat] on a string produced by [toFixed(2)]: the decimal
    [n / 100] is converted to the nearest number; a string produced by
    [Number::toString] converts back to the number it was printed
    from. *)
Definition parseFloat_fixed (f : fixed) : number :=
  match f with
  | FixedDigits neg n => of_fraction neg n 100
  | FixedToString x => x
  end.

(** *** The exact value of a number, for stating what toFixed rounds *)

(** [m * 2^e] as a fraction. *)
Definition magnitude (m : positive) (e : Z) : Q :=
  match e with
  | Zneg k => Zpos m # (2 ^ k)%positive
  | _ => inject_Z (Zpos m * 2 ^ e)
  end.

(** The absolute value of a finite number. *)
Definition abs_value (x : number) : Q :=
  match x with
  | S754_finite _ m e => magnitude m e
  | _ => 0%Q
  end.

(** The sign toFixed prints: "-" for a number below zero. *)
Definition negative (x : number) : bool :=
  match x with
  | S754_finite s _ _ => s
  | _ => false
  end.

(** [x] is finite and [|x| < 10^21]. *)
Definition below_1e21 (x : number) : bool :=
  match x with
  | S754_zero _ => true
  | S754_finite _ m e => negb (at_least_1e21 m e)
  | _ => false
  end.

(** [n / 100] is [q] rounded to two decimal places, a tie going to the
    larger [n]: [100 q - 1/2 < n <= 100 q + 1/2]. *)
Definition half_up (q : Q) (n : Z) : Prop :=
  (100 * q - (1 # 2) < inject_Z n /\ inject_Z n <= 100 * q + (1 # 2))%Q.

(** Following the words of the specification: round2, "two decimal
    places, standard half-up", of an exact amount [q >= 0], in
    hundredths. *)
Definition round2_half_up (q : Q) : Z := Qfloor (100 * q + (1 # 2)).

(** [Number.isNaN(x)] *)
Definition is_nan (x : number) : bool :=
  match x with
  | S754_nan => true
  | _ => false
  end.

(** [a === b] on numbers: equal as numbers, so that the two zeros are
    equal and NaN is equal to nothing. *)
Definition strict_eq (a b : number) : bool := SFeqb a b.

(** [x < 0] *)
Definition below_zero (x : number) : bool :=
  match x with
  | S754_finite s _ _ => s
  | S754_infinity s => s
  | _ => false
  end.

(** Whether the text of a toFixed result starts with "-": the sign of
    the digits, and for [Number::toString(x)] whether [x < 0]. *)
Definition shows_minus (f : fixed) : bool :=
  match f with
  | FixedDigits neg _ => neg
  | FixedToString x => below_zero x
  end.

End Number.

(** ** Documents of the record store

    The Mongoose model files are not part of the sources; the fields are
    those the handlers and the batch page read and write.  An ObjectId is
    kept as its text. *)

Definition ObjectId : Type := string.

Record Teacher : Type := mkTeacher {
  teacher_id : ObjectId;
  name : string;
  email : string;
  phone : string;
  specialization : option string;
  status : string;
  password : string;
  role : string;
  totalEarnings : Number.number
}.

Record Batch : Type := mkBatch {
  batch_id : ObjectId;
  batchName : string;
  teacher : option ObjectId;
  startDate : string;
  endDate : string;
  scheduleDays : list string;
  sessionTime : string;
  sessionTopic : list string;
  totalStudents : Z;
  revenue : Number.number
}.

Record Student : Type := mkStudent {
  student_id : ObjectId;
  teachers : list ObjectId;
  profile : list (string * string)
}.

Record Sale : Type := mkSale {
  sale_id : ObjectId;
  student : ObjectId;
  amount : Number.number;
  sale_status : string
}.

(** The four collections, each in the order [find] returns it. *)
Record Store : Type := mkStore {
  Teachers : list Teacher;
  Batches : list Batch;
  Students : list Student;
  Sales : list Sale
}.

Definition with_Teachers (ts : list Teacher) (db : Store) : Store :=
  mkStore ts (Batches db) (Students db) (Sales db).
Definition with_Batches (bs : list Batch) (db : Store) : Store :=
  mkStore (Teachers db) bs (Students db) (Sales db).
Definition with_Students (ss : list Student) (db : Store) : Store :=
  mkStore (Teachers db) (Batches db) ss (Sales db).

Definition set_totalEarnings (v : Number.number) (t : Teacher) : Teacher :=
  mkTeacher (teacher_id t) (name t) (email t) (phone t) (specialization t)
            (status t) (password t) (role t) v.

Definition unset_teacher (b : Batch) : Batch :=
  mkBatch (batch_id b) (batchName b) None (startDate b) (endDate b)
          (scheduleDays b) (sessionTime b) (sessionTopic b)
          (totalStudents b) (revenue b).

Definition set_teachers (l : list ObjectId) (s : Student) : Student :=
  mkStudent (student_id s) l (profile s).

(** Each teacher document has its own [_id]. *)
Definition unique_ids (db : Store) : Prop := NoDup (map teacher_id (Teachers db)).

(** ** Requests and responses *)

(** A field of a JSON request body: absent or a string. *)
Definition field : Type := option string.

(** JavaScript truthiness of such a field. *)
Definition truthy (v : field) : bool :=
  match v with
  | Some s => negb (s =? "")%string
  | None => false
  end.

Record TeacherBody : Type := mkTeacherBody {
  body_name : field;
  body_email : field;
  body_phone : field;
  body_specialization : field;
  body_status : field;
  body_password : field
}.

Inductive Json : Type :=
| JTeachers (l : list Teacher)
| JTeacher (t : Teacher)
| JMessage (m : string)
| JError (e : string).

Record Response : Type := mkResponse {
  code : Z;
  json : Json
}.

(** ** Awaited storage calls

    A handler runs against the store; an awaited call either returns a
    value or throws, and what was written before a throw stays
    written. *)

Inductive outcome (A : Type) : Type :=
| Returned (a : A)
| Thrown.
Arguments Returned {A} a.
Arguments Thrown {A}.

Definition M (A : Type) : Type := Store -> outcome A * Store.

Definition ret {A} (a : A) : M A := fun db => (Returned a, db).

Definition bind {A B} (c : M A) (k : A -> M B) : M B :=
  fun db =>
    match c db with
    | (Returned a, db') => k a db'
    | (Thrown, db') => (Thrown, db')
    end.

(** [try { c } catch (error) { console.error(...); h }]: every handler
    of the router answers a thrown error with a fixed response. *)
Definition try_catch {A} (c : M A) (h : A) : Store -> A * Store :=
  fun db =>
    match c db with
    | (Returned a, db') => (a, db')
    | (Thrown, db') => (h, db')
    end.

Declare Scope handler_scope.
Delimit Scope handler_scope with handler.
Notation "x <- c ;; k" := (bind c (fun x => k))
  (at level 61, c at next level, right associativity) : handler_scope.
Notation "c ;;; k" := (bind c (fun _ => k))
  (at level 61, right associativity) : handler_scope.

(** [for (let x of l) { await body(x) }] *)
Fixpoint for_of {A} (l : list A) (body : A -> M unit) : M unit :=
  match l with
  | [] => ret tt
  | x :: rest => bind (body x) (fun _ => for_of rest body)
  end.

(** The storage calls the handlers await. *)
Inductive StoreOp : Type :=
| Teacher_find
| Teacher_findById (id : ObjectId)
| Teacher_findOne (email : string) (ne : option ObjectId)
| Teacher_findByIdAndUpdate (id : ObjectId)
| Teacher_findByIdAndDelete (id : ObjectId)
| Teacher_save (id : ObjectId)
| Student_find (teacher : ObjectId)
| Student_updateMany (teacher : ObjectId)
| Sales_find (students : list ObjectId)
| Batch_updateMany (teacher : ObjectId)
| Bcrypt_hash.

(** ** Queries and updates on the collections *)

Definition id_eqb (a b : ObjectId) : bool := (a =? b)%string.

(** [{ teachers: id }]: the array field contains [id]. *)
Definition teaches (id : ObjectId) (s : Student) : bool :=
  existsb (id_eqb id) (teachers s).

(** [{ student: { $in: ids }, status: 'completed' }] *)
Definition completed_sale_of (ids : list ObjectId) (sale : Sale) : bool :=
  existsb (id_eqb (student sale)) ids && (sale_status sale =? "completed")%string.

(** [{ teacher: id }] *)
Definition taught_by (id : ObjectId) (b : Batch) : bool :=
  match teacher b with
  | Some t => id_eqb t id
  | None => false
  end.

(** [$unset: { teacher: "" }] on the batches matching [{ teacher: id }]. *)
Definition unset_teacher_where (id : ObjectId) (bs : list Batch) : list Batch :=
  map (fun b => if taught_by id b then unset_teacher b else b) bs.

(** [$pull: { teachers: id }]: every occurrence of [id] leaves the array. *)
Definition pull (id : ObjectId) (l : list ObjectId) : list ObjectId :=
  filter (fun t => negb (id_eqb t id)) l.

Definition pull_teacher_where (id : ObjectId) (ss : list Student) : list Student :=
  map (fun s => if teaches id s then set_teachers (pull id (teachers s)) s else s) ss.

(** [doc.save()] of a loaded teacher whose [totalEarnings] was assigned:
    the stored document with that [_id] receives the value; [None] when
    the document is gone. *)
Fixpoint save_totalEarnings (doc : Teacher) (ts : list Teacher) : option (list Teacher) :=
  match ts with
  | [] => None
  | t :: rest =>
      if id_eqb (teacher_id t) (teacher_id doc)
      then Some (set_totalEarnings (totalEarnings doc) t :: rest)
      else option_map (cons t) (save_totalEarnings doc rest)
  end.

(** The fields of an update object that are [undefined] are left out of
    the update. *)
Definition or_old (v : field) (old : string) : string :=
  match v with
  | Some s => s
  | None => old
  end.

Definition apply_update (b : TeacherBody) (t : Teacher) : Teacher :=
  mkTeacher (teacher_id t)
            (or_old (body_name b) (name t))
            (or_old (body_email b) (email t))
            (or_old (body_phone b) (phone t))
            (match body_specialization b with
             | Some s => Some s
             | None => specialization t
             end)
            (or_old (body_status b) (status t))
            (password t) (role t) (totalEarnings t).

(** The first document with [_id = id], updated in place. *)
Fixpoint update_by_id (id : ObjectId) (f : Teacher -> Teacher) (ts : list Teacher)
  : option (Teacher * list Teacher) :=
  match ts with
  | [] => None
  | t :: rest =>
      if id_eqb (teacher_id t) id then Some (f t, f t :: rest)
      else match update_by_id id f rest with
           | Some (u, rest') => Some (u, t :: rest')
           | None => None
           end
  end.

(** The first document with [_id = id], removed. *)
Fixpoint delete_by_id (id : ObjectId) (ts : list Teacher)
  : option (Teacher * list Teacher) :=
  match ts with
  | [] => None
  | t :: rest =>
      if id_eqb (teacher_id t) id then Some (t, rest)
      else match delete_by_id id rest with
           | Some (d, rest') => Some (d, t :: rest')
           | None => None
           end
  end.

(** ** The handlers of [teachers.route.js] *)

Section Routes.

(** [mongoose.Types.ObjectId.isValid] and the cast Mongoose applies to
    an id given as text in a query. *)
Variable isValid : string -> bool.
Variable castObjectId : string -> ObjectId.

(** Which awaited call throws, in which state of the store. *)
Variable faulty : StoreOp -> Store -> bool.

(** The schema validators run by [runValidators: true]. *)
Variable runValidators : TeacherBody -> bool.

(** [bcrypt.genSalt(10)] followed by [bcrypt.hash], the [_id] given to a
    new document, and the schema default of [totalEarnings]. *)
Variable hashPassword : string -> string.
Variable newObjectId : Store -> ObjectId.
Variable defaultTotalEarnings : Number.number.

Local Open Scope handler_scope.

(** An awaited call that reads. *)
Definition query {A} (op : StoreOp) (read : Store -> A) : M A :=
  fun db => if faulty op db then (Thrown, db) else (Returned (read db), db).

Definition Teacher_find_all : M (list Teacher) :=
  query Teacher_find Teachers.

Definition Student_find_by_teacher (id : ObjectId) : M (list Student) :=
  query (Student_find id) (fun db => filter (teaches id) (Students db)).

Definition Sales_find_completed (ids : list ObjectId) : M (list Sale) :=
  query (Sales_find ids) (fun db => filter (completed_sale_of ids) (Sales db)).

Definition Teacher_find_by_id (id : string) : M (option Teacher) :=
  query (Teacher_findById (castObjectId id))
        (fun db => find (fun t => id_eqb (teacher_id t) (castObjectId id)) (Teachers db)).

(** [Teacher.findOne({ email })] *)
Definition Teacher_find_email (e : string) : M (option Teacher) :=
  query (Teacher_findOne e None)
        (fun db => find (fun t => (email t =? e)%string) (Teachers db)).

(** [Teacher.findOne({ email, _id: { $ne: id } })] *)
Definition Teacher_find_email_ne (e : string) (id : string) : M (option Teacher) :=
  query (Teacher_findOne e (Some (castObjectId id)))
        (fun db => find (fun t => (email t =? e)%string
                                  && negb (id_eqb (teacher_id t) (castObjectId id)))
                        (Teachers db)).

(** [teacher.totalEarnings = assigned; await teacher.save()] in the
    listing loop.  Mongoose casts the assigned value to the Number of
    the schema: NaN does not cast and the save is rejected.  A value
    strictly equal to the one the document was loaded with leaves the
    path unmodified, and nothing is written.  Otherwise the stored
    document with the [_id] receives the value. *)
Definition Teacher_save_doc (teacher : Teacher) (assigned : Number.number) : M unit :=
  fun db =>
    if faulty (Teacher_save (teacher_id teacher)) db then (Thrown, db)
    else if Number.is_nan assigned then (Thrown, db)
    else if Number.strict_eq (totalEarnings teacher) assigned then (Returned tt, db)
    else match save_totalEarnings (set_totalEarnings assigned teacher) (Teachers db) with
         | Some ts => (Returned tt, with_Teachers ts db)
         | None => (Thrown, db)
         end.

(** [newTeacher.save()] *)
Definition Teacher_save_new (doc : Teacher) : M unit :=
  fun db =>
    if faulty (Teacher_save (teacher_id doc)) db then (Thrown, db)
    else (Returned tt, with_Teachers (Teachers db ++ [doc]) db).

Definition Teacher_update_by_id (id : string) (b : TeacherBody) : M (option Teacher) :=
  fun db =>
    if faulty (Teacher_findByIdAndUpdate (castObjectId id)) db then (Thrown, db)
    else if negb (runValidators b) then (Thrown, db)
    else match update_by_id (castObjectId id) (apply_update b) (Teachers db) with
         | Some (u, ts) => (Returned (Some u), with_Teachers ts db)
         | None => (Returned None, db)
         end.

Definition Teacher_delete_by_id (id : string) : M (option Teacher) :=
  fun db =>
    if faulty (Teacher_findByIdAndDelete (castObjectId id)) db then (Thrown, db)
    else match delete_by_id (castObjectId id) (Teachers db) with
         | Some (d, ts) => (Returned (Some d), with_Teachers ts db)
         | None => (Returned None, db)
         end.

Definition Batch_unset_teacher (id : string) : M unit :=
  fun db =>
    if faulty (Batch_updateMany (castObjectId id)) db then (Thrown, db)
    else (Returned tt, with_Batches (unset_teacher_where (castObjectId id) (Batches db)) db).

Definition Student_pull_teacher (id : string) : M unit :=
  fun db =>
    if faulty (Student_updateMany (castObjectId id)) db then (Thrown, db)
    else (Returned tt, with_Students (pull_teacher_where (castObjectId id) (Students db)) db).

Definition bcrypt_hash (pw : string) : M string :=
  query Bcrypt_hash (fun _ => hashPassword pw).

(** *** GET /api/teachers *)

(** [sales.reduce((sum, sale) => sum + sale.amount, 0)] *)
Definition sum_amounts (sales : list Sale) : Number.number :=
  fold_left (fun sum sale => Number.add sum (amount sale)) sales Number.zero.

(** [parseFloat((totalEarnings * 0.3).toFixed(2))] *)
Definition earnings_of (total : Number.number) : Number.number :=
  Number.parseFloat_fixed (Number.toFixed2 (Number.mul total Number.lit_0_3)).

(** The body of the loop over the teachers. *)
Definition recomputeTeacherEarnings (teacher : Teacher) : M unit :=
  students <- Student_find_by_teacher (teacher_id teacher) ;;
  let studentIds := map student_id students in
  sales <- Sales_find_completed studentIds ;;
  let totalEarnings := sum_amounts sales in
  Teacher_save_doc teacher (earnings_of totalEarnings).

Definition get_teachers : Store -> Response * Store :=
  try_catch
    (teachers <- Teacher_find_all ;;
     for_of teachers recomputeTeacherEarnings ;;;
     updatedTeachers <- Teacher_find_all ;;
     ret (mkResponse 200 (JTeachers updatedTeachers)))
    (mkResponse 500 (JMessage "Failed to fetch teachers")).

(** *** GET /api/teachers/:teacherId *)

Definition get_teacher (teacherId : string) : Store -> Response * Store :=
  if negb (isValid teacherId)
  then fun db => (mkResponse 400 (JError "Invalid Teacher ID"), db)
  else
    try_catch
      (teacher <- Teacher_find_by_id teacherId ;;
       match teacher with
       | None => ret (mkResponse 404 (JError "Teacher not found"))
       | Some t => ret (mkResponse 200 (JTeacher t))
       end)
      (mkResponse 500 (JError "Server Error")).

(** *** PUT /api/teachers/:id *)

Definition put_teacher (id : string) (body : TeacherBody) : Store -> Response * Store :=
  if negb (isValid id)
  then fun db => (mkResponse 400 (JError "Invalid Teacher ID"), db)
  else
    try_catch
      (existingTeacher <-
         (if truthy (body_email body)
          then Teacher_find_email_ne (or_old (body_email body) "") id
          else ret None) ;;
       match existingTeacher with
       | Some _ =>
           ret (mkResponse 400 (JMessage "Another teacher with this email already exists"))
       | None =>
           updatedTeacher <- Teacher_update_by_id id body ;;
           match updatedTeacher with
           | None => ret (mkResponse 404 (JError "Teacher not found"))
           | Some t => ret (mkResponse 200 (JTeacher t))
           end
       end)
      (mkResponse 500 (JError "Server Error")).

(** *** POST /api/teachers *)

Definition post_teacher (body : TeacherBody) : Store -> Response * Store :=
  try_catch
    (if negb (truthy (body_name body)) || negb (truthy (body_email body))
        || negb (truthy (body_phone body)) || negb (truthy (body_password body))
     then ret (mkResponse 400 (JMessage "Name, email, phone, and password are required."))
     else
       existingTeacher <- Teacher_find_email (or_old (body_email body) "") ;;
       match existingTeacher with
       | Some _ => ret (mkResponse 400 (JMessage "Teacher with this email already exists"))
       | None =>
           hashedPassword <- bcrypt_hash (or_old (body_password body) "") ;;
           (fun db =>
              let newTeacher :=
                mkTeacher (newObjectId db)
                          (or_old (body_name body) "")
                          (or_old (body_email body) "")
                          (or_old (body_phone body) "")
                          (body_specialization body)
                          (if truthy (body_status body)
                           then or_old (body_status body) "" else "active")
                          hashedPassword
                          "Teacher"
                          defaultTotalEarnings in
              (Teacher_save_new newTeacher ;;;
               ret (mkResponse 201 (JTeacher newTeacher))) db)
       end)
    (mkResponse 500 (JMessage "Internal server error")).

(** *** DELETE /api/teachers/:id *)

Definition delete_teacher (id : string) : Store -> Response * Store :=
  if negb (isValid id)
  then fun db => (mkResponse 400 (JError "Invalid Teacher ID"), db)
  else
    try_catch
      (deletedTeacher <- Teacher_delete_by_id id ;;
       match deletedTeacher with
       | None => ret (mkResponse 404 (JError "Teacher not found"))
       | Some _ =>
           Batch_unset_teacher id ;;;
           Student_pull_teacher id ;;;
           ret (mkResponse 200 (JMessage "Teacher deleted and references cleaned"))
       end)
      (mkResponse 500 (JError "Server Error")).

End Routes.

(** ** The batch page, [Batches.tsx] *)

Section BatchPage.

(** The time value of [new Date(text)], in milliseconds since the
    epoch; [None] is the time value NaN of an invalid date. *)
Variable Date_parse : string -> option Z.

(** [a < b] on two dates: the comparison of their time values, false
    when either is NaN. *)
Definition date_lt (a b : option Z) : bool :=
  match a, b with
  | Some x, Some y => x <? y
  | _, _ => false
  end.

(** [now] is the time value of [new Date()]. *)
Definition getBatchStatus (now : Z) (startDate endDate : string) : string :=
  let start := Date_parse startDate in
  let end_ := Date_parse endDate in
  if date_lt (Some now) start then "upcoming"
  else if date_lt end_ (Some now) then "completed"
  else "ongoing".

End BatchPage.

(** The cells under "Teacher (20%)" and "OLL Share (30%)". *)
Definition teacherShare (revenue : Number.number) : Number.fixed :=
  Number.toFixed2 (Number.mul revenue Number.lit_0_2).

Definition platformShare (revenue : Number.number) : Number.fixed :=
  Number.toFixed2 (Number.mul revenue Number.lit_0_3).

Definition allocate (revenue : Number.number) : Number.fixed * Number.fixed :=
  (teacherShare revenue, platformShare revenue).

(** ** Vocabulary of the properties *)

(** No awaited call throws. *)
Definition reliable (faulty : StoreOp -> Store -> bool) : Prop :=
  forall op db, faulty op db = false.

(** Following the words of the specification: the sale is completed and
    its [student] is one of the students whose [teachers] list contains
    the teacher's id. *)
Definition counts_toward (teacherId : ObjectId) (students : list Student) (sale : Sale) : bool :=
  existsb (fun s => id_eqb (student_id s) (student sale)
                    && existsb (id_eqb teacherId) (teachers s)) students
  && (sale_status sale =? "completed")%string.

(** round2 (S * 0.30), S the sum of [amount] over the sales that count. *)
Definition expected_earnings (db : Store) (teacherId : ObjectId) : Number.number :=
  earnings_of (sum_amounts (filter (counts_toward teacherId (Students db)) (Sales db))).

(** The teacher as stored after its turn of the loop: with the value
    assigned, unless the value is NaN or strictly equal to the one it
    had. *)
Definition recomputed (db : Store) (t : Teacher) : Teacher :=
  let v := expected_earnings db (teacher_id t) in
  if Number.is_nan v then t
  else if Number.strict_eq (totalEarnings t) v then t
  else set_totalEarnings v t.

(** The teachers after the loop over [l], and whether the loop ended
    without a throw: it stops at the first teacher whose value is NaN. *)
Fixpoint listing_result (db : Store) (l : list Teacher) : list Teacher * bool :=
  match l with
  | [] => ([], true)
  | t :: rest =>
      if Number.is_nan (expected_earnings db (teacher_id t)) then (t :: rest, false)
      else (recomputed db t :: fst (listing_result db rest),
            snd (listing_result db rest))
  end.

(** One teacher with a batch, two students with completed sales of 50
    and 30, and a pending sale of 1000. *)
Definition example_teacher_id : ObjectId := "665f1c2ab7e4d90012a3b401"%string.

Definition example_teacher : Teacher :=
  mkTeacher example_teacher_id "Jamie Smith" "jamie.smith@example.com"
            "+1 234-567-8901" (Some "Business Strategy"%string) "active"
            "$2b$10$N9qo8uLOickgx2ZMRZoMye" "Teacher" Number.zero.

Definition example_store : Store :=
  let s1 : ObjectId := "665f1c2ab7e4d90012a3b501"%string in
  let s2 : ObjectId := "665f1c2ab7e4d90012a3b502"%string in
  mkStore
    [ example_teacher ]
    [ mkBatch "665f1c2ab7e4d90012a3b601"%string "Batch A" (Some example_teacher_id)
              "2023-01-01" "2023-06-01"
              [ "Monday"; "Wednesday"; "Friday" ]%string "10:00 AM - 12:00 PM"
              [ "Math"; "Science" ]%string 20 (Number.of_Z 2000) ]
    [ mkStudent s1 [ example_teacher_id ] []; mkStudent s2 [ example_teacher_id ] [] ]
    [ mkSale "665f1c2ab7e4d90012a3b701"%string s1 (Number.of_Z 50) "completed";
      mkSale "665f1c2ab7e4d90012a3b702"%string s2 (Number.of_Z 30) "completed";
      mkSale "665f1c2ab7e4d90012a3b703"%string s1 (Number.of_Z 1000) "pending" ].

(** One teacher, one student, one completed sale of 0.25. *)
Definition quarter_store : Store :=
  mkStore [ example_teacher ] []
          [ mkStudent "665f1c2ab7e4d90012a3b501"%string [ example_teacher_id ] [] ]
          [ mkSale "665f1c2ab7e4d90012a3b701"%string "665f1c2ab7e4d90012a3b501"%string
                   (Number.of_fraction false 1 4) "completed" ].

(** A second teacher, and the example with both. *)
Definition second_teacher : Teacher :=
  mkTeacher "665f1c2ab7e4d90012a3b402"%string "Alex Doe" "alex.doe@example.com"
            "+1 234-567-8902" None "active"
            "$2b$10$7EqJtq98hPqEX7fNZaFWoO" "Teacher" Number.zero.

Definition two_teacher_store : Store :=
  with_Teachers [ example_teacher; second_teacher ] example_store.

(** Update bodies that carry only an email. *)
Definition email_only (e : string) : TeacherBody :=
  mkTeacherBody None (Some e) None None None None.

(** An id no document of the example has. *)
Definition absent_id : string := "665f1c2ab7e4d90012a3b4ff".

(** A text of 24 hexadecimal digits is a valid id; it is its own cast. *)
Definition is_hex_digit (c : ascii) : bool :=
  let n := nat_of_ascii c in
  ((48 <=? n) && (n <=? 57) || (97 <=? n) && (n <=? 102) || (65 <=? n) && (n <=? 70))%nat.

Definition hex24 (text : string) : bool :=
  (String.length text =? 24)%nat && forallb is_hex_digit (list_ascii_of_string text).

Definition cast_text (text : string) : ObjectId := text.

Definition accept_all (b : TeacherBody) : bool := true.

(** The duplicate-email answer of PUT /api/teachers/:id. *)
Definition email_conflict : Response :=
  mkResponse 400 (JMessage "Another teacher with this email already exists").

Definition never_faulty (op : StoreOp) (db : Store) : bool := false.

(** Every [save] throws, every other call succeeds. *)
Definition saves_fail (op : StoreOp) (db : Store) : bool :=
  match op with
  | Teacher_save _ => true
  | _ => false
  end.

(** What the cleanup after deleting teacher [id] may do to a batch: the
    [teacher] field is cleared when it was [id]; nothing else changes. *)
Definition batch_frame (id : ObjectId) (b b' : Batch) : Prop :=
  batch_id b' = batch_id b
  /\ batchName b' = batchName b
  /\ startDate b' = startDate b
  /\ endDate b' = endDate b
  /\ scheduleDays b' = scheduleDays b
  /\ sessionTime b' = sessionTime b
  /\ sessionTopic b' = sessionTopic b
  /\ totalStudents b' = totalStudents b
  /\ revenue b' = revenue b
  /\ (teacher b' = teacher b \/ (teacher b = Some id /\ teacher b' = None))
  /\ (teacher b <> Some id -> b' = b).

(** What it may do to a student: [id] leaves the [teachers] list, the
    other entries stay in order; nothing else changes. *)
Definition student_frame (id : ObjectId) (s s' : Student) : Prop :=
  student_id s' = student_id s
  /\ profile s' = profile s
  /\ (teachers s' = teachers s \/ teachers s' = pull id (teachers s))
  /\ (~ In id (teachers s) -> s' = s).

(** Time values of the two dates of the seed batch of the page, as
    [new Date] gives them (midnight UTC); any other text is an invalid
    date here. *)
Definition seed_dates (text : string) : option Z :=
  if (text =? "2023-01-01")%string then Some 1672531200000
  else if (text =? "2023-06-01")%string then Some 1685577600000
  else None.

(** ** More of the batch page *)

(** [str.split(sep)] for a separator of one character: the pieces
    between the occurrences of [sep]; never an empty array. *)
Fixpoint split (sep : ascii) (s : string) : list string :=
  match s with
  | EmptyString => [EmptyString]
  | String c rest =>
      if Ascii.eqb c sep then EmptyString :: split sep rest
      else match split sep rest with
           | [] => [String c EmptyString]
           | piece :: pieces => String c piece :: pieces
           end
  end.

(** [arr.join(sep)] *)
Definition join (sep : ascii) (pieces : list string) : string :=
  String.concat (String sep EmptyString) pieces.

Definition newline : ascii := ascii_of_nat 10.
Definition letter_T : ascii := ascii_of_nat 84.

(** [selectedDays.includes(day) ? selectedDays.filter(d => d !== day)
                                : [...selectedDays, day]] *)
Definition handleDayToggle (selectedDays : list string) (day : string) : list string :=
  if existsb (String.eqb day) selectedDays
  then filter (fun d => negb (d =? day)%string) selectedDays
  else selectedDays ++ [day].

(** [str.includes(sub)] *)
Fixpoint includes (s sub : string) : bool :=
  String.prefix sub s
  || match s with
     | EmptyString => false
     | String _ rest => includes rest sub
     end.

(** [text.split("T")[0]], the date of an ISO timestamp. *)
Definition date_part (text : string) : string :=
  hd EmptyString (split letter_T text).

Section BatchForms.

(** The code units [trim] strips: WhiteSpace and LineTerminator. *)
Variable isWhiteSpace : ascii -> bool.

Fixpoint trimStart (s : string) : string :=
  match s with
  | EmptyString => EmptyString
  | String c rest => if isWhiteSpace c then trimStart rest else s
  end.

Definition reverse (s : string) : string :=
  string_of_list_ascii (rev (list_ascii_of_string s)).

Definition trimEnd (s : string) : string := reverse (trimStart (reverse s)).

Definition trim (s : string) : string := trimEnd (trimStart s).

(** [data.topics.split('\n').filter(topic => topic.trim())], the
    [sessionTopic] sent by [handleUpdateBatch]. *)
Definition submitted_topics (topics : string) : list string :=
  filter (fun topic => negb (trim topic =? "")%string) (split newline topics).

End BatchForms.

(** [Array.isArray(batch.sessionTopic) ? batch.sessionTopic.join('\n')
                                       : batch.sessionTopic || ""],
    the [topics] field [handleEditBatch] gives the edit form. *)
Definition edit_topics (sessionTopic : list string + field) : string :=
  match sessionTopic with
  | inl topics => join newline topics
  | inr text => if truthy text then or_old text "" else ""
  end.



Section BatchList.

Variable Date_parse : string -> option Z.

(** [str.toLowerCase()] *)
Variable toLowerCase : string -> string.

(** [batchesData.map(batch => ({...batch, status: getBatchStatus(...)}))];
    [now i] is the time value of the [new Date()] of the call for the
    batch at position [i]. *)
Fixpoint batchesWithStatus_from (i : nat) (now : nat -> Z) (batchesData : list Batch)
  : list (Batch * string) :=
  match batchesData with
  | [] => []
  | batch :: rest =>
      (batch, getBatchStatus Date_parse (now i) (startDate batch) (endDate batch))
        :: batchesWithStatus_from (S i) now rest
  end.

Definition batchesWithStatus (now : nat -> Z) (batchesData : list Batch)
  : list (Batch * string) :=
  batchesWithStatus_from 0 now batchesData.

(** [(batch.batchName?.toLowerCase() || "").includes(searchTerm.toLowerCase())
     && (activeTab === "all" || batch.status === activeTab)] *)
Definition shown (searchTerm activeTab : string) (row : Batch * string) : bool :=
  let lowered := toLowerCase (batchName (fst row)) in
  includes (if (lowered =? "")%string then "" else lowered) (toLowerCase searchTerm)
  && ((activeTab =? "all")%string || (snd row =? activeTab)%string).

Definition filteredBatches (now : nat -> Z) (searchTerm activeTab : string)
           (batchesData : list Batch) : list (Batch * string) :=
  filter (shown searchTerm activeTab) (batchesWithStatus now batchesData).

End BatchList.

(** ** More vocabulary *)

(** The listing may change a teacher's [totalEarnings], nothing else. *)
Definition earnings_frame (t t' : Teacher) : Prop :=
  teacher_id t' = teacher_id t
  /\ name t' = name t
  /\ email t' = email t
  /\ phone t' = phone t
  /\ specialization t' = specialization t
  /\ status t' = status t
  /\ password t' = password t
  /\ role t' = role t.

(** An update never touches the id, the password, the role or the
    earnings of a teacher. *)
Definition account_frame (t t' : Teacher) : Prop :=
  teacher_id t' = teacher_id t
  /\ password t' = password t
  /\ role t' = role t
  /\ totalEarnings t' = totalEarnings t.

(** Only the teachers differ, each at most in its earnings. *)
Definition earnings_only (db db' : Store) : Prop :=
  Batches db' = Batches db
  /\ Students db' = Students db
  /\ Sales db' = Sales db
  /\ Forall2 earnings_frame (Teachers db) (Teachers db').

(** An update body with no field. *)
Definition empty_body : TeacherBody := mkTeacherBody None None None None None None.

(** The teacher POST /api/teachers builds from a body, in store [db]. *)
Definition new_teacher (hashPassword : string -> string) (newObjectId : Store -> ObjectId)
           (defaultTotalEarnings : Number.number) (body : TeacherBody) (db : Store) : Teacher :=
  mkTeacher (newObjectId db)
            (or_old (body_name body) "")
            (or_old (body_email body) "")
            (or_old (body_phone body) "")
            (body_specialization body)
            (if truthy (body_status body) then or_old (body_status body) "" else "active")
            (hashPassword (or_old (body_password body) ""))
            "Teacher"
            defaultTotalEarnings.

(** The four fields POST /api/teachers requires. *)
Definition required_present (body : TeacherBody) : bool :=
  truthy (body_name body) && truthy (body_email body)
  && truthy (body_phone body) && truthy (body_password body).

(** Every storage call throws. *)
Definition always_faulty (op : StoreOp) (db : Store) : bool := true.

(** Only the cleanup of the batches throws. *)
Definition batch_cleanup_fails (op : StoreOp) (db : Store) : bool :=
  match op with
  | Batch_updateMany _ => true
  | _ => false
  end.

(** Space, tab and the line terminators of ASCII. *)
Definition ascii_white (c : ascii) : bool :=
  let n := nat_of_ascii c in
  ((n =? 32) || (9 <=? n) && (n <=? 13))%nat.

(** Only the save of the second teacher throws. *)
Definition second_save_fails (op : StoreOp) (db : Store) : bool :=
  match op with
  | Teacher_save id => id_eqb id (teacher_id second_teacher)
  | _ => false
  end.

(** A creation body with the four required fields and a new email. *)
Definition example_body : TeacherBody :=
  mkTeacherBody (Some "Robin Roe"%string) (Some "robin.roe@example.com"%string)
                (Some "+1 234-567-8903"%string) None None (Some "secret"%string).

(** * Properties *)

(** ** The literals are the binary64 values nearest to 0.2 and 0.3 *)

Example lit_0_2_bits :
  Number.lit_0_2 = S754_finite false 7205759403792794 (-55).
Proof. vm_compute. reflexivity. Qed.

Example lit_0_3_bits :
  Number.lit_0_3 = S754_finite false 5404319552844595 (-54).
Proof. vm_compute. reflexivity. Qed.

(** [(1.005).toFixed(2)] is "1.00": the number written 1.005 lies below
    the decimal 1.005. *)
Example toFixed2_1_005 :
  Number.toFixed2 (Number.of_fraction false 1005 1000) = Number.FixedDigits false 100.
Proof. vm_compute. reflexivity. Qed.

(** ** Status deriver *)

Section StatusDeriver.

Variable Date_parse : string -> option Z.

Lemma getBatchStatus_cases (now : Z) (startDate endDate : string) :
  let r := getBatchStatus Date_parse now startDate endDate in
  (date_lt (Some now) (Date_parse startDate) = true /\ r = "upcoming"%string)
  \/ (date_lt (Some now) (Date_parse startDate) = false
      /\ date_lt (Date_parse endDate) (Some now) = true /\ r = "completed"%string)
  \/ (date_lt (Some now) (Date_parse startDate) = false
      /\ date_lt (Date_parse endDate) (Some now) = false /\ r = "ongoing"%string).
Proof.
  unfold getBatchStatus.
  destruct (date_lt (Some now) (Date_parse startDate)) eqn:Hs; [ now left | right ].
  destruct (date_lt (Date_parse endDate) (Some now)) eqn:He; [ now left | now right ].
Qed.

(** C3, amended.  The status is exactly one of upcoming, ongoing and
    completed: upcoming iff now < startDate; completed iff now > endDate
    and not now < startDate; ongoing otherwise.  With now = startDate
    the status is ongoing unless now > endDate, and with now = endDate
    it is ongoing unless now < startDate; so both boundaries are ongoing
    whenever startDate <= endDate. *)
Theorem getBatchStatus_first_match (now : Z) (startDate endDate : string) :
  let r := getBatchStatus Date_parse now startDate endDate in
  let before_start := date_lt (Some now) (Date_parse startDate) in
  let after_end := date_lt (Date_parse endDate) (Some now) in
  (r = "upcoming" \/ r = "ongoing" \/ r = "completed")%string
  /\ (r = "upcoming"%string <-> before_start = true)
  /\ (r = "completed"%string <-> before_start = false /\ after_end = true)
  /\ (r = "ongoing"%string <-> before_start = false /\ after_end = false)
  /\ (Date_parse startDate = Some now -> after_end = false -> r = "ongoing"%string)
  /\ (Date_parse endDate = Some now -> before_start = false -> r = "ongoing"%string)
  /\ (forall s e, Date_parse startDate = Some s -> Date_parse endDate = Some e ->
      s <= e -> now = s \/ now = e -> r = "ongoing"%string).
Proof.
  intros r before_start after_end.
  pose proof (getBatchStatus_cases now startDate endDate) as H.
  fold r before_start after_end in H.
  assert (Hb1 : Date_parse startDate = Some now -> before_start = false).
  { intros E. unfold before_start. rewrite E. simpl. apply Z.ltb_irrefl. }
  assert (Hb2 : Date_parse endDate = Some now -> after_end = false).
  { intros E. unfold after_end. rewrite E. simpl. apply Z.ltb_irrefl. }
  assert (Hord : forall s e, Date_parse startDate = Some s -> Date_parse endDate = Some e ->
                             s <= e -> now = s \/ now = e ->
                             before_start = false /\ after_end = false).
  { intros s e Es Ee Hle Hnow. unfold before_start, after_end.
    rewrite Es, Ee. simpl. split; apply Z.ltb_ge; lia. }
  destruct H as [[Hs Hr] | [[Hs [He Hr]] | [Hs [He Hr]]]];
    rewrite Hr; rewrite Hs in *; try rewrite He in *;
    repeat split; intros;
      try solve [ auto | discriminate | tauto
                | match goal with H : _ /\ _ |- _ => destruct H; discriminate end
                | match goal with
                  | H : Date_parse startDate = Some now |- _ =>
                      specialize (Hb1 H); discriminate
                  | H : Date_parse endDate = Some now |- _ =>
                      specialize (Hb2 H); discriminate
                  end
                | match goal with
                  | H1 : Date_parse startDate = Some ?s,
                    H2 : Date_parse endDate = Some ?e |- _ =>
                      destruct (Hord s e H1 H2) as [? ?]; [ assumption | assumption | ];
                      discriminate
                  end ].
Qed.

End StatusDeriver.

(** C3 as stated fails: with a start date after the end date and now in
    between, now > endDate holds and the status is upcoming, not
    completed. *)
Lemma getBatchStatus_completed_iff_counterexample :
  let now := 1677628800000 in
  let r := getBatchStatus seed_dates now "2023-06-01" "2023-01-01" in
  ~ (r = "completed"%string <-> date_lt (seed_dates "2023-01-01") (Some now) = true).
Proof.
  intros now r [_ H].
  assert (E : r = "upcoming"%string) by reflexivity.
  rewrite E in H. specialize (H eq_refl). discriminate H.
Qed.

(** ** Revenue allocator *)

Lemma hundredths_half_up (m : positive) (e : Z) :
  Number.half_up (Number.magnitude m e) (Number.hundredths m e).
Proof.
  unfold Number.half_up, Number.magnitude, Number.hundredths.
  destruct e as [|p|k];
    unfold Qlt, Qle, Qminus, Qplus, Qmult, Qopp, inject_Z; cbn [Qnum Qden];
    rewrite !Pos2Z.inj_mul.
  - lia.
  - set (P := 2 ^ Z.pos p). lia.
  - rewrite Pos2Z.inj_pow.
    change (Z.pos k + 1) with (Z.succ (Z.pos k)).
    rewrite Z.pow_succ_r by lia.
    set (D := 2 ^ Z.pos k).
    assert (HD : 0 < D) by (apply Z.pow_pos_nonneg; lia).
    pose proof (Z.div_mod (200 * Z.pos m + D) (2 * D) ltac:(lia)) as Hdm.
    pose proof (Z.mod_pos_bound (200 * Z.pos m + D) (2 * D) ltac:(lia)) as Hb.
    set (n := (200 * Z.pos m + D) / (2 * D)) in *.
    set (r := (200 * Z.pos m + D) mod (2 * D)) in *.
    nia.
Qed.

Lemma hundredths_nonneg (m : positive) (e : Z) : 0 <= Number.hundredths m e.
Proof.
  unfold Number.hundredths. destruct e as [|p|k].
  - lia.
  - assert (0 < 2 ^ Z.pos p) by (apply Z.pow_pos_nonneg; lia). nia.
  - apply Z.div_pos.
    + assert (0 < 2 ^ Z.pos k) by (apply Z.pow_pos_nonneg; lia). lia.
    + apply Z.pow_pos_nonneg; lia.
Qed.

(** What [toFixed(2)] prints for a finite number below [10^21]: its
    sign, and the hundredths nearest to its exact absolute value, a tie
    going up. *)
Lemma toFixed2_half_up (x : Number.number) :
  Number.below_1e21 x = true ->
  exists n : N,
    Number.toFixed2 x = Number.FixedDigits (Number.negative x) n
    /\ Number.half_up (Number.abs_value x) (Z.of_N n).
Proof.
  destruct x as [s | s | | s m e]; simpl; try discriminate; intros H.
  - exists 0%N. split; [ reflexivity | ].
    unfold Number.half_up, Qlt, Qle; simpl; lia.
  - apply negb_true_iff in H. rewrite H.
    exists (Z.to_N (Number.hundredths m e)). split; [ reflexivity | ].
    rewrite Z2N.id by apply hundredths_nonneg.
    apply hundredths_half_up.
Qed.

(** C4, amended.  For every revenue [r] whose products [r * 0.2] and
    [r * 0.3], as computed on binary64 numbers, are finite and below
    [10^21] in magnitude, the two cells show those products rounded to two
    decimal places, a tie going away from zero: the rounding is that of
    the exact value of the computed product, not of the decimal product.
    allocate(100) shows 20.00 and 30.00, allocate(0) shows 0.00 and
    0.00. *)
Theorem allocate_rounds_computed_product :
  (forall r : Number.number,
      let p2 := Number.mul r Number.lit_0_2 in
      let p3 := Number.mul r Number.lit_0_3 in
      Number.below_1e21 p2 = true ->
      Number.below_1e21 p3 = true ->
      exists n2 n3 : N,
        allocate r = (Number.FixedDigits (Number.negative p2) n2,
                      Number.FixedDigits (Number.negative p3) n3)
        /\ Number.half_up (Number.abs_value p2) (Z.of_N n2)
        /\ Number.half_up (Number.abs_value p3) (Z.of_N n3))
  /\ allocate (Number.of_Z 100)
     = (Number.FixedDigits false 2000, Number.FixedDigits false 3000)
  /\ (Number.fixed_text false 2000 = "20.00"
      /\ Number.fixed_text false 3000 = "30.00")%string
  /\ allocate Number.zero
     = (Number.FixedDigits false 0, Number.FixedDigits false 0)
  /\ Number.fixed_text false 0 = "0.00"%string.
Proof.
  split; [ | repeat split; vm_compute; reflexivity ].
  intros r p2 p3 H2 H3.
  destruct (toFixed2_half_up p2 H2) as [n2 [E2 R2]].
  destruct (toFixed2_half_up p3 H3) as [n3 [E3 R3]].
  exists n2, n3. unfold allocate, teacherShare, platformShare.
  fold p2 p3. rewrite E2, E3. auto.
Qed.

Lemma allocate_rounds_computed_product_witness :
  let r := Number.of_fraction false 1 4 in
  Number.below_1e21 (Number.mul r Number.lit_0_2) = true
  /\ Number.below_1e21 (Number.mul r Number.lit_0_3) = true
  /\ exists n2 n3 : N,
      allocate r = (Number.FixedDigits false n2, Number.FixedDigits false n3)
      /\ Number.half_up (Number.abs_value (Number.mul r Number.lit_0_2)) (Z.of_N n2)
      /\ Number.half_up (Number.abs_value (Number.mul r Number.lit_0_3)) (Z.of_N n3).
Proof.
  intros r. split; [ reflexivity | split; [ reflexivity | ] ].
  exact (proj1 allocate_rounds_computed_product r eq_refl eq_refl).
Defined.

(** A revenue of [10^22]: the product with 0.3 is [3 * 10^21], which
    toFixed prints through [Number::toString], in exponent notation. *)
Example platformShare_1e22 :
  platformShare (Number.of_Z (10 ^ 22))
  = Number.FixedToString (Number.mul (Number.of_Z (10 ^ 22)) Number.lit_0_3).
Proof. vm_compute. reflexivity. Qed.

(** C4 as stated fails.  The revenue 0.25 is a binary64 number; 0.25 times
    0.30 is 0.075, which rounds half-up to 0.08; the cell shows 0.07,
    because the computed product lies just below 0.075. *)
Lemma platformShare_quarter_counterexample :
  let r := Number.of_fraction false 1 4 in
  (Number.abs_value r == 1 # 4)%Q
  /\ Number.round2_half_up ((1 # 4) * (30 # 100)) = 8
  /\ platformShare r = Number.FixedDigits false 7
  /\ platformShare r
     <> Number.FixedDigits false
          (Z.to_N (Number.round2_half_up (Number.abs_value r * (30 # 100)))).
Proof.
  intros r. split; [ reflexivity | ].
  split; [ reflexivity | ].
  split; [ vm_compute; reflexivity | ].
  vm_compute. discriminate.
Qed.

(** ** Identifiers and queries *)

Lemma id_eqb_eq (a b : ObjectId) : id_eqb a b = true <-> a = b.
Proof. apply String.eqb_eq. Qed.

Lemma id_eqb_refl (a : ObjectId) : id_eqb a a = true.
Proof. apply String.eqb_refl. Qed.

Lemma id_eqb_sym (a b : ObjectId) : id_eqb a b = id_eqb b a.
Proof. apply String.eqb_sym. Qed.

Lemma id_eqb_neq (a b : ObjectId) : id_eqb a b = false <-> a <> b.
Proof. apply String.eqb_neq. Qed.

Lemma existsb_id_In (id : ObjectId) (l : list ObjectId) :
  existsb (id_eqb id) l = true <-> In id l.
Proof.
  rewrite existsb_exists. split.
  - intros [x [Hin Heq]]. apply id_eqb_eq in Heq. now subst.
  - intros Hin. exists id. split; [ assumption | apply id_eqb_refl ].
Qed.

Lemma counts_toward_spec (id : ObjectId) (students : list Student) (sale : Sale) :
  counts_toward id students sale = true
  <-> sale_status sale = "completed"%string
      /\ exists s, In s students /\ student_id s = student sale /\ In id (teachers s).
Proof.
  unfold counts_toward. rewrite andb_true_iff, existsb_exists, String.eqb_eq.
  split.
  - intros [[s [Hin Hs]] Hst]. apply andb_true_iff in Hs as [H1 H2].
    split; [ assumption | ]. exists s. repeat split; try assumption.
    + now apply id_eqb_eq.
    + now apply existsb_id_In.
  - intros [Hst [s [Hin [H1 H2]]]]. split; [ | assumption ].
    exists s. split; [ assumption | ]. apply andb_true_iff. split.
    + now apply id_eqb_eq.
    + now apply existsb_id_In.
Qed.

(** The two queries of the loop select the sales that count. *)
Lemma completed_sale_of_counts (id : ObjectId) (students : list Student) (sale : Sale) :
  completed_sale_of (map student_id (filter (teaches id) students)) sale
  = counts_toward id students sale.
Proof.
  unfold completed_sale_of, counts_toward. f_equal.
  induction students as [| s rest IH]; [ reflexivity | ].
  cbn [filter existsb]. unfold teaches at 1.
  destruct (existsb (id_eqb id) (teachers s)) eqn:E.
  - cbn [map existsb]. rewrite IH, (id_eqb_sym (student sale)), andb_true_r.
    reflexivity.
  - rewrite IH, andb_false_r. reflexivity.
Qed.

Lemma save_totalEarnings_at (doc t : Teacher) (done rest : list Teacher) :
  teacher_id t = teacher_id doc ->
  ~ In (teacher_id doc) (map teacher_id done) ->
  save_totalEarnings doc (done ++ t :: rest)
  = Some (done ++ set_totalEarnings (totalEarnings doc) t :: rest).
Proof.
  intros Hid. induction done as [| d done IH]; intros Hnot.
  - cbn. rewrite Hid, id_eqb_refl. reflexivity.
  - cbn [app save_totalEarnings].
    destruct (id_eqb (teacher_id d) (teacher_id doc)) eqn:E.
    + apply id_eqb_eq in E. exfalso. apply Hnot. now left.
    + rewrite IH; [ reflexivity | ]. intros Hin. apply Hnot. now right.
Qed.

(** ** The listing, GET /api/teachers *)

Lemma with_Teachers_same (db : Store) : with_Teachers (Teachers db) db = db.
Proof. now destruct db. Qed.

Lemma strict_eq_refl (x : Number.number) :
  Number.is_nan x = false -> Number.strict_eq x x = true.
Proof.
  unfold Number.strict_eq, SFeqb, SFcompare.
  destruct x as [s | s | | s m e]; cbn; intros H; try discriminate.
  - reflexivity.
  - now destruct s.
  - destruct s; now rewrite Z.compare_refl, Pos.compare_cont_refl.
Qed.

Lemma expected_earnings_same (db db' : Store) (id : ObjectId) :
  Students db' = Students db -> Sales db' = Sales db ->
  expected_earnings db' id = expected_earnings db id.
Proof. intros Hst Hsa. unfold expected_earnings. now rewrite Hst, Hsa. Qed.

Lemma recomputed_id (db : Store) (t : Teacher) :
  teacher_id (recomputed db t) = teacher_id t.
Proof.
  unfold recomputed.
  destruct (Number.is_nan _); [ reflexivity | ].
  now destruct (Number.strict_eq _ _).
Qed.

Lemma recomputed_same (db db' : Store) (t : Teacher) :
  Students db' = Students db -> Sales db' = Sales db ->
  recomputed db' t = recomputed db t.
Proof.
  intros Hst Hsa. unfold recomputed.
  now rewrite (expected_earnings_same db db' _ Hst Hsa).
Qed.

Lemma recomputed_twice (db db' : Store) (t : Teacher) :
  Students db' = Students db ->
  Sales db' = Sales db ->
  recomputed db' (recomputed db t) = recomputed db t.
Proof.
  intros Hst Hsa. rewrite (recomputed_same db db' _ Hst Hsa).
  remember (expected_earnings db (teacher_id t)) as v eqn:Ev.
  assert (Hstep : forall u, teacher_id u = teacher_id t ->
                            recomputed db u
                            = if Number.is_nan v then u
                              else if Number.strict_eq (totalEarnings u) v then u
                                   else set_totalEarnings v u).
  { intros u Hu. unfold recomputed. cbn zeta. now rewrite Hu, <- Ev. }
  rewrite (Hstep t eq_refl).
  destruct (Number.is_nan v) eqn:Hn.
  { now rewrite (Hstep t eq_refl). }
  destruct (Number.strict_eq (totalEarnings t) v) eqn:He.
  - rewrite (Hstep t eq_refl). now rewrite He.
  - rewrite (Hstep (set_totalEarnings v t) eq_refl).
    cbn [totalEarnings set_totalEarnings].
    now rewrite (strict_eq_refl v Hn).
Qed.

Lemma listing_result_ids (db : Store) (l : list Teacher) :
  map teacher_id (fst (listing_result db l)) = map teacher_id l.
Proof.
  induction l as [| t rest IH]; cbn; [ reflexivity | ].
  destruct (Number.is_nan _); cbn; [ reflexivity | ].
  now rewrite recomputed_id, IH.
Qed.

(** Without NaN the loop visits every teacher. *)
Lemma listing_result_clean (db : Store) (l : list Teacher) :
  (forall t, In t l -> Number.is_nan (expected_earnings db (teacher_id t)) = false) ->
  listing_result db l = (map (recomputed db) l, true).
Proof.
  induction l as [| t rest IH]; intros H; cbn; [ reflexivity | ].
  rewrite (H t (or_introl eq_refl)).
  rewrite IH; [ reflexivity | ]. intros x Hx. apply H. now right.
Qed.

(** With a NaN the loop throws. *)
Lemma listing_result_nan (db : Store) (l : list Teacher) (t : Teacher) :
  In t l -> Number.is_nan (expected_earnings db (teacher_id t)) = true ->
  snd (listing_result db l) = false.
Proof.
  induction l as [| x rest IH]; intros Hin Hn; [ contradiction | ].
  cbn. destruct (Number.is_nan (expected_earnings db (teacher_id x))) eqn:E;
    [ reflexivity | ].
  destruct Hin as [-> | Hin]; [ congruence | now apply IH ].
Qed.

(** A second pass over the teachers the loop left finds them as they
    are. *)
Lemma listing_result_twice (db db' : Store) (l : list Teacher) :
  Students db' = Students db ->
  Sales db' = Sales db ->
  listing_result db' (fst (listing_result db l)) = listing_result db l.
Proof.
  intros Hst Hsa. induction l as [| t rest IH]; [ reflexivity | ].
  cbn [listing_result].
  destruct (Number.is_nan (expected_earnings db (teacher_id t))) eqn:E.
  - cbn [fst listing_result].
    rewrite (expected_earnings_same db db' _ Hst Hsa), E. reflexivity.
  - cbn [fst snd listing_result].
    rewrite recomputed_id, (expected_earnings_same db db' _ Hst Hsa), E.
    rewrite IH, (recomputed_twice db db' t Hst Hsa). reflexivity.
Qed.

Section Listing.

Variable faulty : StoreOp -> Store -> bool.

Lemma expected_earnings_with_Teachers (ts : list Teacher) (db : Store) (id : ObjectId) :
  expected_earnings (with_Teachers ts db) id = expected_earnings db id.
Proof. reflexivity. Qed.

(** One turn of the loop on the document [t], stored after [done]. *)
Lemma recompute_step (db : Store) (done rest : list Teacher) (t : Teacher) :
  reliable faulty ->
  Teachers db = done ++ t :: rest ->
  ~ In (teacher_id t) (map teacher_id done) ->
  recomputeTeacherEarnings faulty t db
  = if Number.is_nan (expected_earnings db (teacher_id t))
    then (Thrown, db)
    else (Returned tt, with_Teachers (done ++ recomputed db t :: rest) db).
Proof.
  intros Hrel Hts Hnot.
  unfold recomputeTeacherEarnings, bind, Student_find_by_teacher,
    Sales_find_completed, query, Teacher_save_doc.
  rewrite !Hrel.
  rewrite (filter_ext _ _ (completed_sale_of_counts (teacher_id t) (Students db))).
  unfold recomputed. cbn zeta.
  change (earnings_of
            (sum_amounts (filter (counts_toward (teacher_id t) (Students db)) (Sales db))))
    with (expected_earnings db (teacher_id t)).
  set (v := expected_earnings db (teacher_id t)).
  destruct (Number.is_nan v); [ reflexivity | ].
  destruct (Number.strict_eq (totalEarnings t) v).
  - now rewrite <- Hts, with_Teachers_same.
  - rewrite Hts.
    rewrite save_totalEarnings_at; [ reflexivity | reflexivity | exact Hnot ].
Qed.

(** The loop over the documents [l] still to visit. *)
Lemma for_of_recompute (l : list Teacher) :
  reliable faulty ->
  forall (done : list Teacher) (db0 db : Store),
    Students db = Students db0 ->
    Sales db = Sales db0 ->
    Batches db = Batches db0 ->
    Teachers db = done ++ l ->
    NoDup (map teacher_id (done ++ l)) ->
    for_of l (recomputeTeacherEarnings faulty) db
    = (if snd (listing_result db0 l) then Returned tt else Thrown,
       with_Teachers (done ++ fst (listing_result db0 l)) db0).
Proof.
  intros Hrel. induction l as [| t rest IH]; intros done db0 db Hst Hsa Hba Hts Hnd.
  - cbn. unfold ret. f_equal.
    destruct db, db0; cbn in *; subst; reflexivity.
  - cbn [for_of listing_result]. unfold bind.
    assert (Hnot : ~ In (teacher_id t) (map teacher_id done)).
    { rewrite map_app in Hnd. cbn in Hnd.
      apply NoDup_remove_2 in Hnd. intros Hin. apply Hnd.
      apply in_or_app. now left. }
    rewrite (recompute_step db done rest t Hrel Hts Hnot).
    rewrite (expected_earnings_same db0 db _ Hst Hsa).
    rewrite (recomputed_same db0 db t Hst Hsa).
    destruct (Number.is_nan (expected_earnings db0 (teacher_id t))).
    + cbn [fst snd]. f_equal.
      destruct db, db0; cbn in *; subst; reflexivity.
    + cbn [fst snd].
      rewrite (IH (done ++ [recomputed db0 t]) db0).
      * rewrite <- app_assoc. reflexivity.
      * exact Hst.
      * exact Hsa.
      * exact Hba.
      * cbn. rewrite <- app_assoc. reflexivity.
      * rewrite <- app_assoc. cbn.
        rewrite map_app in *. cbn in *. rewrite recomputed_id. exact Hnd.
Qed.

(** With no failing call the listing stores what the loop leaves, and
    answers 200 with it, or 500 when the loop threw on a NaN. *)
Lemma get_teachers_listing (db : Store) :
  reliable faulty ->
  unique_ids db ->
  get_teachers faulty db
  = (if snd (listing_result db (Teachers db))
     then mkResponse 200 (JTeachers (fst (listing_result db (Teachers db))))
     else mkResponse 500 (JMessage "Failed to fetch teachers"),
     with_Teachers (fst (listing_result db (Teachers db))) db).
Proof.
  intros Hrel Hu.
  unfold get_teachers, try_catch, bind, Teacher_find_all, query.
  rewrite Hrel.
  rewrite (for_of_recompute (Teachers db) Hrel [] db db);
    try reflexivity; [ | exact Hu ].
  cbn [app]. destruct (snd (listing_result db (Teachers db))); [ | reflexivity ].
  rewrite Hrel. reflexivity.
Qed.

(** With no failing call and no NaN the listing stores the recomputed
    teachers and answers with them. *)
Lemma get_teachers_reliable (db : Store) :
  reliable faulty ->
  unique_ids db ->
  (forall t, In t (Teachers db) ->
             Number.is_nan (expected_earnings db (teacher_id t)) = false) ->
  get_teachers faulty db
  = (mkResponse 200 (JTeachers (map (recomputed db) (Teachers db))),
     with_Teachers (map (recomputed db) (Teachers db)) db).
Proof.
  intros Hrel Hu Hclean.
  rewrite (get_teachers_listing db Hrel Hu).
  now rewrite (listing_result_clean db (Teachers db) Hclean).
Qed.

(** A turn of the loop whose save fails throws. *)
Lemma recompute_throws (t : Teacher) (db : Store) :
  (forall db', faulty (Teacher_save (teacher_id t)) db' = true) ->
  fst (recomputeTeacherEarnings faulty t db) = Thrown.
Proof.
  intros Hf.
  unfold recomputeTeacherEarnings, bind, Student_find_by_teacher,
    Sales_find_completed, query, Teacher_save_doc.
  destruct (faulty (Student_find (teacher_id t)) db); [ reflexivity | ].
  destruct (faulty (Sales_find _) db); [ reflexivity | ].
  rewrite Hf. reflexivity.
Qed.

Lemma for_of_throws (t : Teacher) (l : list Teacher) :
  In t l ->
  (forall db', faulty (Teacher_save (teacher_id t)) db' = true) ->
  forall db, fst (for_of l (recomputeTeacherEarnings faulty) db) = Thrown.
Proof.
  intros Hin Hf. induction l as [| x rest IH]; [ contradiction | ].
  intros db. cbn [for_of]. unfold bind.
  destruct Hin as [-> | Hin].
  - pose proof (recompute_throws t db Hf) as Ht.
    destruct (recomputeTeacherEarnings faulty t db) as [[[] |] db'];
      [ discriminate | reflexivity ].
  - destruct (recomputeTeacherEarnings faulty x db) as [[[] |] db'];
      [ now apply IH | reflexivity ].
Qed.

End Listing.

(** C1, amended.  When no call fails, teacher ids are distinct and no
    recomputed value is NaN, GET /api/teachers answers 200 and stores for
    every teacher earnings equal to parseFloat ((S * 0.3).toFixed (2)) as
    computed on binary64 numbers (a value equal to the one the teacher
    had is not rewritten, so a zero keeps its sign); if a recomputed value
    is NaN the answer is 500.  S is the sum of [amount] over exactly the
    sales that are completed and whose [student] is a student whose
    [teachers] list contains the teacher's id; a sale with another status
    contributes nothing.  For a product S * 0.3 that is finite and below
    10^21 the value is the number nearest to n / 100, where n / 100 is the
    computed product rounded to two decimal places by its exact binary
    value, a tie going away from zero; this is not always the half-up
    rounding of the decimal product.  For completed sales of 50 and 30
    and a pending sale of 1000 the result is 24.00. *)
Theorem get_teachers_recomputes_earnings :
  (forall (faulty : StoreOp -> Store -> bool) (db : Store),
      reliable faulty ->
      unique_ids db ->
      (forall t, In t (Teachers db) ->
                 Number.is_nan (expected_earnings db (teacher_id t)) = false) ->
      get_teachers faulty db
      = (mkResponse 200 (JTeachers (map (recomputed db) (Teachers db))),
         with_Teachers (map (recomputed db) (Teachers db)) db))
  /\ (forall (faulty : StoreOp -> Store -> bool) (db : Store) (t : Teacher),
         reliable faulty ->
         unique_ids db ->
         In t (Teachers db) ->
         Number.is_nan (expected_earnings db (teacher_id t)) = true ->
         fst (get_teachers faulty db)
         = mkResponse 500 (JMessage "Failed to fetch teachers"))
  /\ (forall (db : Store) (t : Teacher),
         let v := expected_earnings db (teacher_id t) in
         Number.is_nan v = false ->
         Number.strict_eq (totalEarnings (recomputed db t)) v = true
         /\ (Number.strict_eq (totalEarnings t) v = false ->
             recomputed db t = set_totalEarnings v t)
         /\ (Number.strict_eq (totalEarnings t) v = true -> recomputed db t = t))
  /\ (forall (db : Store) (id : ObjectId),
         let product :=
           Number.mul
             (sum_amounts (filter (counts_toward id (Students db)) (Sales db)))
             Number.lit_0_3 in
         expected_earnings db id = Number.parseFloat_fixed (Number.toFixed2 product)
         /\ (Number.below_1e21 product = true ->
             exists n : N,
               expected_earnings db id = Number.of_fraction (Number.negative product) n 100
               /\ Number.half_up (Number.abs_value product) (Z.of_N n)))
  /\ (forall (id : ObjectId) (students : list Student) (sale : Sale),
         counts_toward id students sale = true
         <-> sale_status sale = "completed"%string
             /\ exists s, In s students /\ student_id s = student sale
                          /\ In id (teachers s))
  /\ (forall (id : ObjectId) (students : list Student) (sale : Sale) (sales : list Sale),
         sale_status sale <> "completed"%string ->
         sum_amounts (filter (counts_toward id students) (sale :: sales))
         = sum_amounts (filter (counts_toward id students) sales))
  /\ map totalEarnings (Teachers (snd (get_teachers never_faulty example_store)))
     = [Number.of_Z 24]
  /\ Number.toFixed2 (Number.mul (Number.of_Z 80) Number.lit_0_3)
     = Number.FixedDigits false 2400
  /\ Number.fixed_text false 2400 = "24.00"%string.
Proof.
  split; [ intros faulty db Hrel Hu Hclean; now apply get_teachers_reliable | ].
  split.
  { intros faulty db t Hrel Hu Hin Hn.
    rewrite (get_teachers_listing faulty db Hrel Hu).
    now rewrite (listing_result_nan db (Teachers db) t Hin Hn). }
  split.
  { intros db t v Hn. unfold recomputed. cbn zeta. fold v. rewrite Hn.
    destruct (Number.strict_eq (totalEarnings t) v) eqn:He.
    - repeat split; [ exact He | discriminate ].
    - repeat split; [ | discriminate ].
      cbn. now apply strict_eq_refl. }
  split.
  { intros db id product. split; [ reflexivity | ].
    intros Hb. destruct (toFixed2_half_up product Hb) as [n [E H]].
    exists n. split; [ | exact H ].
    unfold expected_earnings, earnings_of. fold product. now rewrite E. }
  split; [ exact counts_toward_spec | ].
  split.
  { intros id students sale sales Hst. cbn [filter].
    assert (E : counts_toward id students sale = false).
    { destruct (counts_toward id students sale) eqn:E; [ | reflexivity ].
      apply counts_toward_spec in E. destruct E as [E _]. contradiction. }
    rewrite E. reflexivity. }
  repeat split; vm_compute; reflexivity.
Qed.

Lemma example_store_clean :
  forall t, In t (Teachers example_store) ->
            Number.is_nan (expected_earnings example_store (teacher_id t)) = false.
Proof. intros t [<- | []]. vm_compute. reflexivity. Qed.

Lemma get_teachers_recomputes_earnings_witness :
  reliable never_faulty
  /\ unique_ids example_store
  /\ get_teachers never_faulty example_store
     = (mkResponse 200 (JTeachers (map (recomputed example_store) (Teachers example_store))),
        with_Teachers (map (recomputed example_store) (Teachers example_store))
                      example_store).
Proof.
  assert (Hrel : reliable never_faulty) by (intros op db; reflexivity).
  assert (Hu : unique_ids example_store).
  { unfold unique_ids. cbn. constructor; [ intros [] | constructor ]. }
  split; [ exact Hrel | split; [ exact Hu | ] ].
  exact (proj1 get_teachers_recomputes_earnings never_faulty example_store Hrel Hu
               example_store_clean).
Defined.

(** C1 as stated fails.  With one completed sale of 0.25, a binary64
    number, round2 (0.30 * 0.25) is the half-up rounding of 0.075, that is
    0.08; the listing stores 0.07, because the computed product lies just
    below 0.075. *)
Lemma get_teachers_quarter_counterexample :
  let stored := map totalEarnings (Teachers (snd (get_teachers never_faulty quarter_store))) in
  map sale_status (Sales quarter_store) = [ "completed"%string ]
  /\ Forall (fun sale => (Number.abs_value (amount sale) == 1 # 4)%Q) (Sales quarter_store)
  /\ Number.round2_half_up ((30 # 100) * (1 # 4)) = 8
  /\ stored = [ Number.of_fraction false 7 100 ]
  /\ stored <> [ Number.of_fraction false
                   (Z.to_N (Number.round2_half_up ((30 # 100) * (1 # 4)))) 100 ].
Proof.
  intros stored. split; [ reflexivity | ].
  split; [ repeat constructor | ].
  split; [ reflexivity | ].
  split; [ vm_compute; reflexivity | ].
  vm_compute. discriminate.
Qed.

(** C6.  Listing twice in a row, with no failing call, leaves students
    and sales as they were and gives the same response and the same
    stored [totalEarnings] the second time. *)
Theorem get_teachers_idempotent (faulty : StoreOp -> Store -> bool) (db : Store) :
  reliable faulty ->
  unique_ids db ->
  let first := get_teachers faulty db in
  let second := get_teachers faulty (snd first) in
  Students (snd first) = Students db
  /\ Sales (snd first) = Sales db
  /\ fst second = fst first
  /\ map totalEarnings (Teachers (snd second)) = map totalEarnings (Teachers (snd first))
  /\ snd second = snd first.
Proof.
  intros Hrel Hu first second. subst second first.
  rewrite (get_teachers_listing faulty db Hrel Hu). cbn [fst snd].
  set (db1 := with_Teachers (fst (listing_result db (Teachers db))) db).
  assert (Hu1 : unique_ids db1).
  { unfold unique_ids, db1. cbn [Teachers with_Teachers].
    rewrite listing_result_ids. exact Hu. }
  rewrite (get_teachers_listing faulty db1 Hrel Hu1). cbn [fst snd].
  assert (Hagain : listing_result db1 (Teachers db1) = listing_result db (Teachers db)).
  { unfold db1 at 2. cbn [Teachers with_Teachers].
    now apply listing_result_twice. }
  rewrite Hagain. repeat split; reflexivity.
Qed.

Lemma get_teachers_idempotent_witness :
  reliable never_faulty
  /\ unique_ids example_store
  /\ snd (get_teachers never_faulty (snd (get_teachers never_faulty example_store)))
     = snd (get_teachers never_faulty example_store).
Proof.
  assert (Hrel : reliable never_faulty) by (intros op db; reflexivity).
  assert (Hu : unique_ids example_store).
  { unfold unique_ids. cbn. constructor; [ intros [] | constructor ]. }
  split; [ exact Hrel | split; [ exact Hu | ] ].
  exact (proj2 (proj2 (proj2 (proj2
           (get_teachers_idempotent never_faulty example_store Hrel Hu))))).
Defined.

(** C8.  If the save of a teacher of the collection fails, the listing
    answers 500 with the message "Failed to fetch teachers" and no array
    of teachers. *)
Theorem get_teachers_save_failure
        (faulty : StoreOp -> Store -> bool) (db : Store) (t : Teacher) :
  In t (Teachers db) ->
  (forall db', faulty (Teacher_save (teacher_id t)) db' = true) ->
  fst (get_teachers faulty db) = mkResponse 500 (JMessage "Failed to fetch teachers").
Proof.
  intros Hin Hf.
  unfold get_teachers, try_catch, bind, Teacher_find_all, query.
  destruct (faulty Teacher_find db); [ reflexivity | ].
  pose proof (for_of_throws faulty t (Teachers db) Hin Hf db) as Hthrow.
  destruct (for_of (Teachers db) (recomputeTeacherEarnings faulty) db) as [[[] |] db'];
    [ discriminate | reflexivity ].
Qed.

Lemma get_teachers_save_failure_witness :
  fst (get_teachers saves_fail example_store)
  = mkResponse 500 (JMessage "Failed to fetch teachers").
Proof.
  refine (get_teachers_save_failure saves_fail example_store example_teacher _ _).
  - left. reflexivity.
  - intros db'. reflexivity.
Defined.

(** ** Deletion, DELETE /api/teachers/:id *)

Lemma taught_by_spec (id : ObjectId) (b : Batch) :
  taught_by id b = true <-> teacher b = Some id.
Proof.
  unfold taught_by. destruct (teacher b) as [t |].
  - rewrite id_eqb_eq. split; [ now intros -> | now intros [= ->] ].
  - split; discriminate.
Qed.

Lemma unset_teacher_where_clears (id : ObjectId) (bs : list Batch) :
  Forall (fun b => teacher b <> Some id) (unset_teacher_where id bs).
Proof.
  unfold unset_teacher_where. apply Forall_map, Forall_forall. intros b _.
  destruct (taught_by id b) eqn:E.
  - discriminate.
  - intros H. apply taught_by_spec in H. congruence.
Qed.

Lemma unset_teacher_where_ids (id : ObjectId) (bs : list Batch) :
  map batch_id (unset_teacher_where id bs) = map batch_id bs.
Proof.
  unfold unset_teacher_where. rewrite map_map. apply map_ext.
  intros b. now destruct (taught_by id b).
Qed.

Lemma pull_spec (id x : ObjectId) (l : list ObjectId) :
  In x (pull id l) <-> In x l /\ x <> id.
Proof.
  unfold pull. rewrite filter_In, negb_true_iff, id_eqb_neq. reflexivity.
Qed.

Lemma pull_absent (id : ObjectId) (l : list ObjectId) :
  ~ In id l -> pull id l = l.
Proof.
  intros Hn. induction l as [| x l IH]; [ reflexivity | ].
  cbn. destruct (id_eqb x id) eqn:E.
  - apply id_eqb_eq in E. subst. exfalso. apply Hn. now left.
  - cbn. f_equal. apply IH. intros H. apply Hn. now right.
Qed.

Lemma pull_teacher_where_clears (id : ObjectId) (ss : list Student) :
  Forall (fun s => ~ In id (teachers s)) (pull_teacher_where id ss).
Proof.
  unfold pull_teacher_where. apply Forall_map, Forall_forall. intros s _.
  destruct (teaches id s) eqn:E.
  - cbn. rewrite pull_spec. tauto.
  - unfold teaches in E. intros H. apply existsb_id_In in H. congruence.
Qed.

Lemma pull_teacher_where_ids (id : ObjectId) (ss : list Student) :
  map student_id (pull_teacher_where id ss) = map student_id ss.
Proof.
  unfold pull_teacher_where. rewrite map_map. apply map_ext.
  intros s. now destruct (teaches id s).
Qed.

Lemma batch_frame_refl (id : ObjectId) (b : Batch) : batch_frame id b b.
Proof. unfold batch_frame. tauto. Qed.

Lemma student_frame_refl (id : ObjectId) (s : Student) : student_frame id s s.
Proof. unfold student_frame. tauto. Qed.

Lemma Forall2_same {A} (R : A -> A -> Prop) (l : list A) :
  (forall x, R x x) -> Forall2 R l l.
Proof. intros H. induction l; constructor; auto. Qed.

Lemma Forall2_map_r {A} (R : A -> A -> Prop) (f : A -> A) (l : list A) :
  (forall x, R x (f x)) -> Forall2 R l (map f l).
Proof. intros H. induction l; cbn; constructor; auto. Qed.

Lemma unset_teacher_where_frame (id : ObjectId) (bs : list Batch) :
  Forall2 (batch_frame id) bs (unset_teacher_where id bs).
Proof.
  apply Forall2_map_r. intros b. destruct (taught_by id b) eqn:E.
  - apply taught_by_spec in E. unfold batch_frame. cbn.
    repeat split; try reflexivity; [ now right | congruence ].
  - apply batch_frame_refl.
Qed.

Lemma pull_teacher_where_frame (id : ObjectId) (ss : list Student) :
  Forall2 (student_frame id) ss (pull_teacher_where id ss).
Proof.
  apply Forall2_map_r. intros s. destruct (teaches id s) eqn:E.
  - unfold student_frame. cbn. repeat split; try reflexivity; [ now right | ].
    intros Hn. rewrite (pull_absent id _ Hn). now destruct s.
  - apply student_frame_refl.
Qed.

Lemma delete_by_id_none (id : ObjectId) (ts : list Teacher) :
  delete_by_id id ts = None <-> (forall t, In t ts -> teacher_id t <> id).
Proof.
  induction ts as [| t ts IH]; cbn.
  - split; [ intros _ t [] | reflexivity ].
  - destruct (id_eqb (teacher_id t) id) eqn:E.
    + apply id_eqb_eq in E. split; [ discriminate | ].
      intros H. exfalso. apply (H t); [ now left | exact E ].
    + apply id_eqb_neq in E.
      destruct (delete_by_id id ts) as [[d ts'] |].
      * split; [ discriminate | ].
        intros H. assert (N : Some (d, ts') = None); [ | discriminate N ].
        apply IH. intros t' Ht'. apply H. now right.
      * split; [ | reflexivity ]. intros _ t' [<- | Hin]; [ exact E | ].
        now apply (proj1 IH eq_refl).
Qed.

Lemma delete_by_id_some (id : ObjectId) (ts ts' : list Teacher) (d : Teacher) :
  delete_by_id id ts = Some (d, ts') ->
  NoDup (map teacher_id ts) ->
  teacher_id d = id /\ In d ts /\ (forall t, In t ts' -> teacher_id t <> id).
Proof.
  revert ts'. induction ts as [| t ts IH]; cbn; intros ts' H Hnd; [ discriminate | ].
  inversion Hnd as [| x l Hnot Hnd']; subst.
  destruct (id_eqb (teacher_id t) id) eqn:E.
  - apply id_eqb_eq in E. injection H as <- <-.
    repeat split; [ exact E | now left | ].
    intros t' Hin Heq. apply Hnot. rewrite E, <- Heq. now apply in_map.
  - apply id_eqb_neq in E.
    destruct (delete_by_id id ts) as [[d' ts''] |]; [ | discriminate ].
    injection H as <- <-.
    destruct (IH ts'' eq_refl Hnd') as [H1 [H2 H3]].
    repeat split; [ exact H1 | now right | ].
    intros t' [<- | Hin]; [ exact E | now apply H3 ].
Qed.

Section Deletion.

Variable isValid : string -> bool.
Variable castObjectId : string -> ObjectId.
Variable faulty : StoreOp -> Store -> bool.

(** The states a deletion can end in: nothing written, or the teacher
    removed and then as much of the cleanup as ran before a call threw. *)
Lemma delete_teacher_outcomes (id : string) (db : Store) :
  let cid := castObjectId id in
  (snd (delete_teacher isValid castObjectId faulty id db) = db /\ code (fst (delete_teacher isValid castObjectId faulty id db)) <> 200)
  \/ exists d ts,
      isValid id = true
      /\ delete_by_id cid (Teachers db) = Some (d, ts)
      /\ let db1 := with_Teachers ts db in
         let db2 := with_Batches (unset_teacher_where cid (Batches db)) db1 in
         let db3 := with_Students (pull_teacher_where cid (Students db)) db2 in
         (snd (delete_teacher isValid castObjectId faulty id db) = db1 /\ code (fst (delete_teacher isValid castObjectId faulty id db)) = 500)
         \/ (snd (delete_teacher isValid castObjectId faulty id db) = db2 /\ code (fst (delete_teacher isValid castObjectId faulty id db)) = 500)
         \/ (snd (delete_teacher isValid castObjectId faulty id db) = db3
             /\ fst (delete_teacher isValid castObjectId faulty id db)
                = mkResponse 200 (JMessage "Teacher deleted and references cleaned")).
Proof.
  intros cid. unfold delete_teacher.
  destruct (isValid id) eqn:Hv; cbn [negb]; [ | left; split; [ reflexivity | discriminate ] ].
  unfold try_catch, bind, Teacher_delete_by_id.
  destruct (faulty (Teacher_findByIdAndDelete (castObjectId id)) db);
    [ left; split; [ reflexivity | discriminate ] | ].
  fold cid.
  destruct (delete_by_id cid (Teachers db)) as [[d ts] |] eqn:Hd;
    [ | left; split; [ reflexivity | discriminate ] ].
  right. exists d, ts. split; [ reflexivity | split; [ reflexivity | ] ].
  unfold Batch_unset_teacher, Student_pull_teacher, ret. fold cid.
  destruct (faulty (Batch_updateMany cid) (with_Teachers ts db));
    [ left; split; reflexivity | ].
  destruct (faulty (Student_updateMany cid) _);
    [ right; left; split; reflexivity | ].
  right; right. split; reflexivity.
Qed.

(** C2.  After a deletion answered with 200, no batch has the deleted
    id as [teacher] and no student has it in [teachers]; the batches and
    the students are all still there. *)
Theorem delete_teacher_clears_references (id : string) (db : Store) :
  code (fst (delete_teacher isValid castObjectId faulty id db)) = 200 ->
  let db' := snd (delete_teacher isValid castObjectId faulty id db) in
  Forall (fun b => teacher b <> Some (castObjectId id)) (Batches db')
  /\ Forall (fun s => ~ In (castObjectId id) (teachers s)) (Students db')
  /\ map batch_id (Batches db') = map batch_id (Batches db)
  /\ map student_id (Students db') = map student_id (Students db).
Proof.
  intros Hok db'. subst db'.
  destruct (delete_teacher_outcomes id db)
    as [[_ Hc] | [d [ts [_ [_ [[_ Hc] | [[_ Hc] | [Hdb _]]]]]]]];
    try congruence.
  rewrite Hdb. cbn [Batches Students with_Students with_Batches with_Teachers].
  repeat split.
  - apply unset_teacher_where_clears.
  - apply pull_teacher_where_clears.
  - apply unset_teacher_where_ids.
  - apply pull_teacher_where_ids.
Qed.

(** C5.  Deleting a valid id that no teacher has answers 404 and leaves
    the store as it was; hence deleting the same id again after a
    successful deletion answers 404. *)
Theorem delete_teacher_not_found (id : string) (db : Store) :
  isValid id = true ->
  (forall db0, faulty (Teacher_findByIdAndDelete (castObjectId id)) db0 = false) ->
  let not_found := mkResponse 404 (JError "Teacher not found") in
  ((forall t, In t (Teachers db) -> teacher_id t <> castObjectId id) ->
   delete_teacher isValid castObjectId faulty id db = (not_found, db))
  /\ (unique_ids db ->
      code (fst (delete_teacher isValid castObjectId faulty id db)) = 200 ->
      let db' := snd (delete_teacher isValid castObjectId faulty id db) in
      delete_teacher isValid castObjectId faulty id db' = (not_found, db')).
Proof.
  intros Hv Hf not_found.
  assert (Hnf : forall db1, (forall t, In t (Teachers db1) -> teacher_id t <> castObjectId id) ->
                            delete_teacher isValid castObjectId faulty id db1 = (not_found, db1)).
  { intros db1 Hno. unfold delete_teacher. rewrite Hv. cbn [negb].
    unfold try_catch, bind, Teacher_delete_by_id. rewrite Hf.
    apply delete_by_id_none in Hno. rewrite Hno. reflexivity. }
  split; [ apply Hnf | ].
  intros Hu Hok db'. apply Hnf. subst db'.
  destruct (delete_teacher_outcomes id db)
    as [[_ Hc] | [d [ts [_ [Hd [[_ Hc] | [[_ Hc] | [Hdb _]]]]]]]];
    try congruence.
  rewrite Hdb. cbn [Teachers with_Students with_Batches with_Teachers].
  exact (proj2 (proj2 (delete_by_id_some _ _ _ _ Hd Hu))).
Qed.

(** C9.  Whatever the outcome of DELETE /api/teachers/:id, every batch
    and every student is still there, in place; a batch differs from
    what it was at most in a [teacher] field that held the deleted id, a
    student at most in a [teachers] list that contained it; the sales
    are untouched. *)
Theorem delete_teacher_frame (id : string) (db : Store) :
  let db' := snd (delete_teacher isValid castObjectId faulty id db) in
  Forall2 (batch_frame (castObjectId id)) (Batches db) (Batches db')
  /\ Forall2 (student_frame (castObjectId id)) (Students db) (Students db')
  /\ Sales db' = Sales db.
Proof.
  intros db'. subst db'.
  destruct (delete_teacher_outcomes id db)
    as [[Hdb _] | [d [ts [_ [_ [[Hdb _] | [[Hdb _] | [Hdb _]]]]]]]];
    rewrite Hdb; cbn [Batches Students Sales with_Students with_Batches with_Teachers];
    repeat split;
    auto using Forall2_same, batch_frame_refl, student_frame_refl,
               unset_teacher_where_frame, pull_teacher_where_frame.
Qed.

End Deletion.

Lemma delete_teacher_clears_references_witness :
  let r := delete_teacher hex24 cast_text never_faulty example_teacher_id example_store in
  code (fst r) = 200
  /\ Forall (fun b => teacher b <> Some example_teacher_id) (Batches (snd r))
  /\ Forall (fun s => ~ In example_teacher_id (teachers s)) (Students (snd r))
  /\ map batch_id (Batches (snd r)) = map batch_id (Batches example_store)
  /\ map student_id (Students (snd r)) = map student_id (Students example_store).
Proof.
  split; [ reflexivity | ].
  exact (delete_teacher_clears_references hex24 cast_text never_faulty
           example_teacher_id example_store eq_refl).
Defined.

Lemma delete_teacher_not_found_witness :
  hex24 absent_id = true
  /\ delete_teacher hex24 cast_text never_faulty absent_id example_store
     = (mkResponse 404 (JError "Teacher not found"), example_store)
  /\ hex24 example_teacher_id = true
  /\ let db' := snd (delete_teacher hex24 cast_text never_faulty
                                    example_teacher_id example_store) in
     delete_teacher hex24 cast_text never_faulty example_teacher_id db'
     = (mkResponse 404 (JError "Teacher not found"), db').
Proof.
  split; [ reflexivity | ].
  split.
  - refine (proj1 (delete_teacher_not_found hex24 cast_text never_faulty
                     absent_id example_store eq_refl (fun _ => eq_refl)) _).
    intros t [<- | []]. discriminate.
  - split; [ reflexivity | ].
    refine (proj2 (delete_teacher_not_found hex24 cast_text never_faulty
                     example_teacher_id example_store eq_refl (fun _ => eq_refl))
                  _ eq_refl).
    unfold unique_ids. cbn. constructor; [ intros [] | constructor ].
Defined.

(** ** Creation and update *)

Lemma find_none_iff {A} (f : A -> bool) (l : list A) :
  find f l = None <-> (forall x, In x l -> f x = false).
Proof.
  split; [ apply find_none | ].
  induction l as [| a l IH]; intros H; [ reflexivity | ].
  cbn. rewrite (H a (or_introl eq_refl)). apply IH.
  intros x Hx. apply H. now right.
Qed.

Lemma find_some_ex {A} (f : A -> bool) (l : list A) (x : A) :
  In x l -> f x = true -> exists y, find f l = Some y.
Proof.
  intros Hin Hf. destruct (find f l) as [y |] eqn:E; [ now exists y | ].
  rewrite (find_none _ _ E x Hin) in Hf. discriminate.
Qed.

Lemma truthy_spec (v : field) :
  truthy v = true <-> exists s, v = Some s /\ s <> ""%string.
Proof.
  destruct v as [s |]; cbn.
  - rewrite negb_true_iff, String.eqb_neq. split.
    + intros H. now exists s.
    + now intros [s' [[= <-] H]].
  - split; [ discriminate | now intros [s [H _]] ].
Qed.

Lemma update_by_id_some (id : ObjectId) (f : Teacher -> Teacher) (ts : list Teacher)
      (t : Teacher) :
  In t ts -> teacher_id t = id ->
  exists t0 ts', update_by_id id f ts = Some (f t0, ts') /\ teacher_id t0 = id.
Proof.
  intros Hin Hid. induction ts as [| a ts IH]; [ contradiction | ].
  cbn. destruct (id_eqb (teacher_id a) id) eqn:E.
  - apply id_eqb_eq in E. now exists a, (f a :: ts).
  - destruct Hin as [-> | Hin].
    + rewrite Hid, id_eqb_refl in E. discriminate.
    + destruct (IH Hin) as [t0 [ts' [H1 H2]]]. rewrite H1.
      now exists t0, (a :: ts').
Qed.

(** C7.  POST /api/teachers with the email of an existing teacher answers
    400 and leaves the store as it was; when the required fields are all
    present the answer is the duplicate-email message. *)
Theorem post_teacher_duplicate_email
        (faulty : StoreOp -> Store -> bool) (hashPassword : string -> string)
        (newObjectId : Store -> ObjectId) (defaultTotalEarnings : Number.number)
        (body : TeacherBody) (db : Store) (t : Teacher) :
  In t (Teachers db) ->
  body_email body = Some (email t) ->
  faulty (Teacher_findOne (email t) None) db = false ->
  let r := post_teacher faulty hashPassword newObjectId defaultTotalEarnings body db in
  code (fst r) = 400
  /\ snd r = db
  /\ (truthy (body_name body) = true -> truthy (body_email body) = true ->
      truthy (body_phone body) = true -> truthy (body_password body) = true ->
      fst r = mkResponse 400 (JMessage "Teacher with this email already exists")).
Proof.
  intros Hin He Hf r. subst r. unfold post_teacher, try_catch, bind.
  destruct (negb (truthy (body_name body)) || negb (truthy (body_email body))
            || negb (truthy (body_phone body)) || negb (truthy (body_password body)))
    eqn:Hreq.
  - cbn. repeat split. intros H1 H2 H3 H4.
    rewrite H1, H2, H3, H4 in Hreq. discriminate.
  - unfold Teacher_find_email, query. rewrite He. cbn [or_old]. rewrite Hf.
    destruct (find_some_ex (fun t0 => (email t0 =? email t)%string) (Teachers db) t Hin
                           (String.eqb_refl _)) as [y Hy].
    rewrite Hy. cbn. repeat split.
Qed.

Lemma post_teacher_duplicate_email_witness :
  let body := mkTeacherBody (Some "Jamie"%string) (Some (email example_teacher))
                            (Some "+1 555-0100"%string) None None
                            (Some "secret"%string) in
  let r := post_teacher never_faulty (fun pw => pw) (fun _ => absent_id) Number.zero
                        body example_store in
  fst r = mkResponse 400 (JMessage "Teacher with this email already exists")
  /\ snd r = example_store.
Proof.
  intros body r.
  destruct (post_teacher_duplicate_email never_faulty (fun pw => pw) (fun _ => absent_id)
              Number.zero body example_store example_teacher
              (or_introl eq_refl) eq_refl eq_refl) as [_ [Hdb Hmsg]].
  split; [ exact (Hmsg eq_refl eq_refl eq_refl eq_refl) | exact Hdb ].
Defined.

Section Update.

Variable isValid : string -> bool.
Variable castObjectId : string -> ObjectId.
Variable faulty : StoreOp -> Store -> bool.
Variable runValidators : TeacherBody -> bool.


(** The email check of the handler, then the update. *)
Lemma put_teacher_stages (id : string) (body : TeacherBody) (db : Store) :
  isValid id = true ->
  (forall e, faulty (Teacher_findOne e (Some (castObjectId id))) db = false) ->
  put_teacher isValid castObjectId faulty runValidators id body db
  = match (if truthy (body_email body)
           then find (fun t => (email t =? or_old (body_email body) "")%string
                               && negb (id_eqb (teacher_id t) (castObjectId id)))
                     (Teachers db)
           else None) with
    | Some _ => (email_conflict, db)
    | None =>
        try_catch
          (bind (Teacher_update_by_id castObjectId faulty runValidators id body)
                (fun updatedTeacher =>
                   match updatedTeacher with
                   | None => ret (mkResponse 404 (JError "Teacher not found"))
                   | Some t => ret (mkResponse 200 (JTeacher t))
                   end))
          (mkResponse 500 (JError "Server Error")) db
    end.
Proof.
  intros Hv Hf. unfold put_teacher. rewrite Hv. cbn [negb].
  unfold try_catch, bind.
  destruct (truthy (body_email body)).
  - unfold Teacher_find_email_ne, query. cbn beta. rewrite Hf.
    destruct (find _ (Teachers db)); reflexivity.
  - reflexivity.
Qed.



End Update.


(** ** The batch page: forms and lists *)

(** [c] occurs in [s]. *)
Local Notation "c 'occurs_in' s" := (In c (list_ascii_of_string s)) (at level 70).

Lemma split_nonempty (sep : ascii) (s : string) : split sep s <> [].
Proof.
  destruct s as [| c rest]; cbn; [ discriminate | ].
  destruct (Ascii.eqb c sep); [ discriminate | ].
  destruct (split sep rest); discriminate.
Qed.

Lemma join_cons (sep : ascii) (p : string) (pieces : list string) :
  pieces <> [] -> join sep (p :: pieces) = (p ++ String sep (join sep pieces))%string.
Proof. unfold join. destruct pieces; [ contradiction | reflexivity ]. Qed.

Lemma split_piece (sep : ascii) (p r : string) :
  ~ sep occurs_in p ->
  split sep (p ++ String sep r) = p :: split sep r.
Proof.
  induction p as [| a p IH]; cbn; intros Hn.
  - now rewrite Ascii.eqb_refl.
  - destruct (Ascii.eqb a sep) eqn:E.
    + apply Ascii.eqb_eq in E. exfalso. apply Hn. now left.
    + rewrite IH; [ reflexivity | ]. intros H. apply Hn. now right.
Qed.

Lemma split_single (sep : ascii) (p : string) :
  ~ sep occurs_in p -> split sep p = [p].
Proof.
  induction p as [| a p IH]; cbn; intros Hn; [ reflexivity | ].
  destruct (Ascii.eqb a sep) eqn:E.
  - apply Ascii.eqb_eq in E. exfalso. apply Hn. now left.
  - rewrite IH; [ reflexivity | ]. intros H. apply Hn. now right.
Qed.

Lemma split_pieces_free (sep : ascii) (s : string) :
  Forall (fun piece => ~ sep occurs_in piece) (split sep s).
Proof.
  induction s as [| c rest IH]; cbn.
  - constructor; [ intros [] | constructor ].
  - destruct (Ascii.eqb c sep) eqn:E.
    + constructor; [ intros [] | exact IH ].
    + apply Ascii.eqb_neq in E.
      destruct (split sep rest) as [| piece pieces].
      * constructor; [ | constructor ]. cbn. intros [H | []]. congruence.
      * inversion IH as [| x l Hp Hps]; subst. constructor; [ | exact Hps ].
        cbn. intros [H | H]; [ congruence | contradiction ].
Qed.

Lemma occurs_append (c : ascii) (a b : string) :
  c occurs_in (a ++ b)%string <-> c occurs_in a \/ c occurs_in b.
Proof.
  induction a as [| x a IH]; cbn.
  - tauto.
  - rewrite IH. tauto.
Qed.

Lemma occurs_join (sep c : ascii) (piece : string) (pieces : list string) :
  In piece pieces -> c occurs_in piece -> c occurs_in join sep pieces.
Proof.
  intros Hin Hc. induction pieces as [| p ps IH]; [ contradiction | ].
  destruct ps as [| p2 ps'].
  - destruct Hin as [-> | []]. exact Hc.
  - rewrite join_cons by discriminate. apply occurs_append.
    destruct Hin as [-> | Hin]; [ now left | right ].
    cbn. right. now apply IH.
Qed.

(** Splitting and joining on the same character undo each other. *)
Theorem join_split_roundtrip (sep : ascii) :
  (forall s, join sep (split sep s) = s)
  /\ (forall pieces,
         pieces <> [] ->
         Forall (fun piece => ~ sep occurs_in piece) pieces ->
         split sep (join sep pieces) = pieces).
Proof.
  split.
  - induction s as [| c rest IH]; cbn [split]; [ reflexivity | ].
    destruct (Ascii.eqb c sep) eqn:E.
    + apply Ascii.eqb_eq in E. subst c.
      rewrite join_cons by apply split_nonempty. cbn. now rewrite IH.
    + pose proof (split_nonempty sep rest) as Hne.
      destruct (split sep rest) as [| piece pieces]; [ contradiction | ].
      destruct pieces as [| p2 ps].
      * cbn in *. now rewrite IH.
      * rewrite join_cons in IH by discriminate.
        rewrite join_cons by discriminate. rewrite <- IH. reflexivity.
  - induction pieces as [| p pieces IH]; intros Hne Hfree; [ contradiction | ].
    inversion Hfree as [| x l Hp Hps]; subst.
    destruct pieces as [| p2 ps].
    + cbn. now apply split_single.
    + rewrite join_cons by discriminate.
      rewrite split_piece by exact Hp.
      rewrite IH; [ reflexivity | discriminate | exact Hps ].
Qed.

Lemma join_split_roundtrip_witness :
  split newline (join newline [ "Math"; "Science" ]%string) = [ "Math"; "Science" ]%string.
Proof.
  apply (proj2 (join_split_roundtrip newline)); [ discriminate | ].
  repeat constructor; cbn; intuition discriminate.
Defined.

(** X1.  The date shown for a timestamp is what precedes its first "T":
    it has no "T", the text starts with it, and a text without "T" is
    shown whole. *)
Theorem date_part_prefix (text : string) :
  ~ letter_T occurs_in date_part text
  /\ (exists rest, text = (date_part text ++ rest)%string)
  /\ (~ letter_T occurs_in text -> date_part text = text)
  /\ (forall day time, ~ letter_T occurs_in day ->
                       text = (day ++ String letter_T time)%string ->
                       date_part text = day).
Proof.
  unfold date_part. repeat split.
  - pose proof (split_pieces_free letter_T text) as H.
    destruct (split letter_T text) as [| piece pieces];
      [ intros [] | now inversion H ].
  - pose proof (proj1 (join_split_roundtrip letter_T) text) as H.
    pose proof (split_nonempty letter_T text) as Hne.
    destruct (split letter_T text) as [| piece pieces]; [ contradiction | ].
    destruct pieces as [| p2 ps].
    + exists EmptyString. cbn in H |- *. rewrite <- H.
      clear. induction piece as [| a piece IH]; cbn; congruence.
    + rewrite join_cons in H by discriminate. cbn [hd]. eauto.
  - intros Hn. now rewrite split_single.
  - intros day time Hn ->. now rewrite split_piece.
Qed.

Section Forms.

Variable isWhiteSpace : ascii -> bool.

Lemma trimStart_nil_iff (s : string) :
  trimStart isWhiteSpace s = EmptyString
  <-> (forall c, c occurs_in s -> isWhiteSpace c = true).
Proof.
  induction s as [| a s IH]; cbn.
  - split; [ intros _ c [] | reflexivity ].
  - destruct (isWhiteSpace a) eqn:E.
    + rewrite IH. split.
      * intros H c [<- | Hc]; auto.
      * intros H c Hc. apply H. now right.
    + split; [ discriminate | ].
      intros H. specialize (H a (or_introl eq_refl)). congruence.
Qed.

Lemma trimStart_keeps (c : ascii) (s : string) :
  c occurs_in s -> isWhiteSpace c = false -> c occurs_in trimStart isWhiteSpace s.
Proof.
  induction s as [| a s IH]; cbn; intros Hin Hw; [ contradiction | ].
  destruct Hin as [-> | Hin].
  - rewrite Hw. now left.
  - destruct (isWhiteSpace a); [ now apply IH | now right ].
Qed.

Lemma reverse_occurs (c : ascii) (s : string) :
  c occurs_in reverse s <-> c occurs_in s.
Proof.
  unfold reverse. rewrite list_ascii_of_string_of_list_ascii.
  symmetry. apply in_rev.
Qed.

Lemma trim_nil_iff (s : string) :
  trim isWhiteSpace s = EmptyString
  <-> (forall c, c occurs_in s -> isWhiteSpace c = true).
Proof.
  split.
  - intros H c Hc. destruct (isWhiteSpace c) eqn:E; [ reflexivity | exfalso ].
    assert (Hin : c occurs_in trim isWhiteSpace s).
    { unfold trim, trimEnd.
      apply reverse_occurs, trimStart_keeps; [ | exact E ].
      apply reverse_occurs, trimStart_keeps; assumption. }
    rewrite H in Hin. exact Hin.
  - intros H. apply trimStart_nil_iff in H. unfold trim. rewrite H. reflexivity.
Qed.

Lemma trim_kept_iff (s : string) :
  negb (trim isWhiteSpace s =? "")%string = true
  <-> exists c, c occurs_in s /\ isWhiteSpace c = false.
Proof.
  rewrite negb_true_iff, String.eqb_neq. split.
  - intros Hne.
    assert (Hex : existsb (fun c => negb (isWhiteSpace c)) (list_ascii_of_string s) = true).
    { destruct (existsb _ _) eqn:E; [ reflexivity | exfalso ].
      apply Hne, trim_nil_iff. intros c Hc.
      rewrite <- not_true_iff_false, existsb_exists in E.
      destruct (isWhiteSpace c) eqn:Ec; [ reflexivity | ].
      exfalso. apply E. exists c. now rewrite Ec. }
    apply existsb_exists in Hex. destruct Hex as [c [Hc Hw]].
    exists c. now rewrite negb_true_iff in Hw.
  - intros [c [Hc Hw]] H. rewrite trim_nil_iff in H.
    rewrite (H c Hc) in Hw. discriminate.
Qed.

(** X2.  What the edit form is filled with comes back on submit: topics
    that have no line break and are not blank survive joining with line
    breaks, splitting and the filter, unchanged and in order. *)
Theorem topics_roundtrip (topics : list string) :
  Forall (fun topic => ~ newline occurs_in topic
                       /\ exists c, c occurs_in topic /\ isWhiteSpace c = false) topics ->
  submitted_topics isWhiteSpace (edit_topics (inl topics)) = topics.
Proof.
  intros H. unfold submitted_topics, edit_topics.
  destruct topics as [| t ts]; [ reflexivity | ].
  rewrite (proj2 (join_split_roundtrip newline)).
  - apply forallb_filter_id. apply forallb_forall. intros x Hx.
    rewrite Forall_forall in H. apply trim_kept_iff. now apply H.
  - discriminate.
  - eapply Forall_impl; [ | exact H ]. now intros a [Ha _].
Qed.

(** X3.  The topics sent on submit are the lines of the text that are not
    blank, in order: none holds a line break, none is blank, and a text
    of blank lines only sends no topic. *)
Theorem submitted_topics_clean (text : string) :
  Forall (fun topic => ~ newline occurs_in topic
                       /\ exists c, c occurs_in topic /\ isWhiteSpace c = false)
         (submitted_topics isWhiteSpace text)
  /\ ((forall c, c occurs_in text -> isWhiteSpace c = true) ->
      submitted_topics isWhiteSpace text = [])
  /\ submitted_topics isWhiteSpace
       (edit_topics (inl (submitted_topics isWhiteSpace text)))
     = submitted_topics isWhiteSpace text.
Proof.
  assert (Hclean : Forall (fun topic => ~ newline occurs_in topic
                       /\ exists c, c occurs_in topic /\ isWhiteSpace c = false)
         (submitted_topics isWhiteSpace text)).
  { unfold submitted_topics. apply Forall_forall. intros t Ht.
    apply filter_In in Ht. destruct Ht as [Hin Hk]. split.
    - pose proof (split_pieces_free newline text) as Hf.
      rewrite Forall_forall in Hf. now apply Hf.
    - now apply trim_kept_iff. }
  split; [ exact Hclean | split ].
  - intros Hw. unfold submitted_topics.
    assert (Hall : forall t, In t (split newline text) ->
                             negb (trim isWhiteSpace t =? "")%string = false).
    { intros t Ht. apply not_true_iff_false. intros Hk.
      apply trim_kept_iff in Hk. destruct Hk as [c [Hc Hnw]].
      assert (Hct : c occurs_in text).
      { rewrite <- (proj1 (join_split_roundtrip newline) text).
        now apply occurs_join with (piece := t). }
      rewrite (Hw c Hct) in Hnw. discriminate. }
    induction (split newline text) as [| p ps IH]; [ reflexivity | ].
    cbn. rewrite (Hall p (or_introl eq_refl)). apply IH.
    intros t Ht. apply Hall. now right.
  - apply topics_roundtrip. exact Hclean.
Qed.

End Forms.

Lemma topics_roundtrip_witness :
  submitted_topics ascii_white (edit_topics (inl [ "Math"; "Science Lab" ]%string))
  = [ "Math"; "Science Lab" ]%string.
Proof.
  apply (topics_roundtrip ascii_white).
  repeat constructor; cbn; try intuition discriminate.
  - exists (ascii_of_nat 77). split; [ now left | reflexivity ].
  - exists (ascii_of_nat 83). split; [ now left | reflexivity ].
Defined.

Lemma selected_spec (day : string) (days : list string) :
  existsb (String.eqb day) days = true <-> In day days.
Proof.
  rewrite existsb_exists. split.
  - intros [d [Hin Heq]]. apply String.eqb_eq in Heq. now subst.
  - intros Hin. exists day. split; [ assumption | apply String.eqb_refl ].
Qed.

Lemma filter_other_days (day d : string) (days : list string) :
  In d (filter (fun x => negb (x =? day)%string) days) <-> In d days /\ d <> day.
Proof. rewrite filter_In, negb_true_iff, String.eqb_neq. reflexivity. Qed.

Lemma filter_absent_day (day : string) (days : list string) :
  ~ In day days -> filter (fun x => negb (x =? day)%string) days = days.
Proof.
  intros Hn. induction days as [| d days IH]; [ reflexivity | ].
  cbn. destruct (d =? day)%string eqn:E.
  - apply String.eqb_eq in E. subst. exfalso. apply Hn. now left.
  - cbn. f_equal. apply IH. intros H. apply Hn. now right.
Qed.

(** X4.  A click on a day switches that day and no other: afterwards the
    day is selected iff it was not, every other day is selected iff it
    was, and a selection without repetition stays without repetition. *)
Theorem handleDayToggle_switches (selectedDays : list string) (day : string) :
  (In day (handleDayToggle selectedDays day) <-> ~ In day selectedDays)
  /\ (forall d, d <> day ->
                (In d (handleDayToggle selectedDays day) <-> In d selectedDays))
  /\ (NoDup selectedDays -> NoDup (handleDayToggle selectedDays day)).
Proof.
  unfold handleDayToggle.
  destruct (existsb (String.eqb day) selectedDays) eqn:E.
  - apply selected_spec in E. split; [ | split ].
    + rewrite filter_other_days. tauto.
    + intros d Hd. rewrite filter_other_days. tauto.
    + intros Hnd. now apply NoDup_filter.
  - assert (Hn : ~ In day selectedDays).
    { intros H. apply selected_spec in H. congruence. }
    split; [ | split ].
    + rewrite in_app_iff. cbn. tauto.
    + intros d Hd. rewrite in_app_iff. cbn. intuition congruence.
    + intros Hnd. apply NoDup_app; [ assumption | repeat constructor; intros [] | ].
      intros a Ha [<- | []]. contradiction.
Qed.

(** X5.  Two clicks on a day that was not selected give back the
    selection; two clicks on a selected day move it to the end. *)
Theorem handleDayToggle_twice (selectedDays : list string) (day : string) :
  (~ In day selectedDays ->
   handleDayToggle (handleDayToggle selectedDays day) day = selectedDays)
  /\ (In day selectedDays ->
      handleDayToggle (handleDayToggle selectedDays day) day
      = filter (fun d => negb (d =? day)%string) selectedDays ++ [day]).
Proof.
  split; intros H.
  - assert (E : existsb (String.eqb day) selectedDays = false).
    { apply not_true_iff_false. intros E. now apply selected_spec in E. }
    unfold handleDayToggle at 2. rewrite E.
    unfold handleDayToggle.
    assert (E' : existsb (String.eqb day) (selectedDays ++ [day]) = true).
    { apply selected_spec, in_or_app. right. now left. }
    rewrite E'. rewrite filter_app. cbn. rewrite String.eqb_refl. cbn.
    rewrite app_nil_r. now apply filter_absent_day.
  - assert (E : existsb (String.eqb day) selectedDays = true)
      by now apply selected_spec.
    unfold handleDayToggle at 2. rewrite E.
    unfold handleDayToggle.
    assert (E' : existsb (String.eqb day)
                         (filter (fun d => negb (d =? day)%string) selectedDays) = false).
    { apply not_true_iff_false. intros E'. apply selected_spec in E'.
      apply filter_other_days in E'. tauto. }
    rewrite E'. reflexivity.
Qed.

Lemma handleDayToggle_twice_witness :
  handleDayToggle (handleDayToggle [ "Monday" ]%string "Friday") "Friday"
  = [ "Monday" ]%string.
Proof.
  apply (proj1 (handleDayToggle_twice [ "Monday" ]%string "Friday")).
  cbn. intuition discriminate.
Defined.

Section Tabs.

Variable Date_parse : string -> option Z.
Variable toLowerCase : string -> string.

Lemma getBatchStatus_three (now : Z) (startDate endDate : string) :
  let r := getBatchStatus Date_parse now startDate endDate in
  (r = "upcoming" \/ r = "ongoing" \/ r = "completed")%string.
Proof.
  unfold getBatchStatus.
  destruct (date_lt _ _); [ now left | ].
  destruct (date_lt _ _); [ now right; right | now right; left ].
Qed.

Lemma tabs_partition_from (i : nat) (now : nat -> Z) (searchTerm : string)
      (batchesData : list Batch) :
  (List.length (filter (shown toLowerCase searchTerm "all")
                       (batchesWithStatus_from Date_parse i now batchesData))
   = List.length (filter (shown toLowerCase searchTerm "upcoming")
                         (batchesWithStatus_from Date_parse i now batchesData))
     + List.length (filter (shown toLowerCase searchTerm "ongoing")
                           (batchesWithStatus_from Date_parse i now batchesData))
     + List.length (filter (shown toLowerCase searchTerm "completed")
                           (batchesWithStatus_from Date_parse i now batchesData)))%nat.
Proof.
  revert i. induction batchesData as [| b rest IH]; intros i; [ reflexivity | ].
  cbn [batchesWithStatus_from filter].
  specialize (IH (S i)).
  set (rows := batchesWithStatus_from Date_parse (S i) now rest) in *.
  set (st := getBatchStatus Date_parse (now i) (startDate b) (endDate b)).
  assert (Hshown : forall tab, shown toLowerCase searchTerm tab (b, st)
                               = shown toLowerCase searchTerm "all" (b, st)
                                 && ((tab =? "all") || (st =? tab))%string).
  { intros tab. unfold shown. cbn [fst snd].
    destruct (includes _ (toLowerCase searchTerm)); reflexivity. }
  rewrite (Hshown "upcoming"%string), (Hshown "ongoing"%string),
    (Hshown "completed"%string).
  destruct (shown toLowerCase searchTerm "all" (b, st)); cbn [andb]; [ | exact IH ].
  destruct (getBatchStatus_three (now i) (startDate b) (endDate b)) as [E | [E | E]];
    fold st in E; rewrite E; cbn; lia.
Qed.

(** X6.  At one render the three status tabs split what the All tab
    shows: for the same search term each batch shown under All is shown
    under exactly one of Upcoming, Ongoing and Completed, so the counts
    add up; and a status tab shows only batches of its status. *)
Theorem tabs_partition (now : nat -> Z) (searchTerm : string) (batchesData : list Batch) :
  let tab (name : string) :=
    filteredBatches Date_parse toLowerCase now searchTerm name batchesData in
  (List.length (tab "all"%string)
   = List.length (tab "upcoming"%string) + List.length (tab "ongoing"%string)
     + List.length (tab "completed"%string))%nat
  /\ (forall name row, name <> "all"%string -> In row (tab name) -> snd row = name)
  /\ (forall name row, In row (tab name) -> In row (tab "all"%string))
  /\ (List.length (tab "all"%string) <= List.length batchesData)%nat.
Proof.
  intros tab. subst tab. unfold filteredBatches, batchesWithStatus. repeat split.
  - apply tabs_partition_from.
  - intros name row Hne Hin. apply filter_In in Hin. destruct Hin as [_ Hs].
    unfold shown in Hs. apply andb_true_iff in Hs. destruct Hs as [_ Hs].
    apply orb_true_iff in Hs. destruct Hs as [Hs | Hs]; apply String.eqb_eq in Hs;
      congruence.
  - intros name row Hin. apply filter_In in Hin. destruct Hin as [Hin Hs].
    apply filter_In. split; [ exact Hin | ].
    unfold shown in *. apply andb_true_iff in Hs. destruct Hs as [Hs _].
    now rewrite Hs.
  - etransitivity; [ apply filter_length_le | ].
    generalize 0%nat. induction batchesData as [| b rest IH]; intros i; cbn; [ lia | ].
    specialize (IH (S i)). lia.
Qed.

End Tabs.


(** ** More on the listing *)

Lemma earnings_frame_refl (t : Teacher) : earnings_frame t t.
Proof. unfold earnings_frame. tauto. Qed.

Lemma earnings_frame_trans (a b c : Teacher) :
  earnings_frame a b -> earnings_frame b c -> earnings_frame a c.
Proof. unfold earnings_frame. intuition congruence. Qed.

Lemma Forall2_compose {A} (R : A -> A -> Prop) :
  (forall a b c, R a b -> R b c -> R a c) ->
  forall l1 l2 l3, Forall2 R l1 l2 -> Forall2 R l2 l3 -> Forall2 R l1 l3.
Proof.
  intros Ht l1 l2 l3 H12. revert l3.
  induction H12 as [| a b l1 l2 Hab _ IH]; intros l3 H23; inversion H23; subst.
  - constructor.
  - constructor; eauto.
Qed.

Lemma earnings_only_refl (db : Store) : earnings_only db db.
Proof.
  unfold earnings_only. repeat split.
  apply Forall2_same, earnings_frame_refl.
Qed.

Lemma earnings_only_trans (a b c : Store) :
  earnings_only a b -> earnings_only b c -> earnings_only a c.
Proof.
  unfold earnings_only. intros [A1 [A2 [A3 A4]]] [B1 [B2 [B3 B4]]].
  repeat split; try congruence.
  exact (Forall2_compose _ earnings_frame_trans _ _ _ A4 B4).
Qed.

Lemma save_totalEarnings_frame (doc : Teacher) (ts ts' : list Teacher) :
  save_totalEarnings doc ts = Some ts' -> Forall2 earnings_frame ts ts'.
Proof.
  revert ts'. induction ts as [| t ts IH]; cbn; intros ts' H; [ discriminate | ].
  destruct (id_eqb (teacher_id t) (teacher_id doc)).
  - injection H as <-. constructor.
    + unfold earnings_frame. cbn. tauto.
    + apply Forall2_same, earnings_frame_refl.
  - destruct (save_totalEarnings doc ts) as [l |]; [ | discriminate ].
    injection H as <-. constructor; [ apply earnings_frame_refl | now apply IH ].
Qed.

Section ListingMore.

Variable faulty : StoreOp -> Store -> bool.

Lemma recompute_earnings_only (t : Teacher) (db : Store) :
  earnings_only db (snd (recomputeTeacherEarnings faulty t db)).
Proof.
  unfold recomputeTeacherEarnings, bind, Student_find_by_teacher,
    Sales_find_completed, query, Teacher_save_doc.
  destruct (faulty (Student_find (teacher_id t)) db); [ apply earnings_only_refl | ].
  destruct (faulty (Sales_find _) db); [ apply earnings_only_refl | ].
  destruct (faulty (Teacher_save _) db); [ apply earnings_only_refl | ].
  destruct (Number.is_nan _); [ apply earnings_only_refl | ].
  destruct (Number.strict_eq _ _); [ apply earnings_only_refl | ].
  destruct (save_totalEarnings _ (Teachers db)) as [ts |] eqn:E;
    [ | apply earnings_only_refl ].
  unfold earnings_only. cbn. repeat split.
  eapply save_totalEarnings_frame. exact E.
Qed.

Lemma for_of_earnings_only (l : list Teacher) (db : Store) :
  earnings_only db (snd (for_of l (recomputeTeacherEarnings faulty) db)).
Proof.
  revert db. induction l as [| t l IH]; intros db; cbn [for_of].
  - apply earnings_only_refl.
  - unfold bind. pose proof (recompute_earnings_only t db) as H1.
    destruct (recomputeTeacherEarnings faulty t db) as [[[] |] db1]; cbn [snd] in *.
    + eapply earnings_only_trans; [ exact H1 | apply IH ].
    + exact H1.
Qed.

(** X8.  Whatever happens, the listing writes nothing but earnings: the
    batches, students and sales are as before, the teachers are the same
    documents in the same order and differ at most in [totalEarnings];
    and a 200 answer carries the teachers as stored. *)
Theorem get_teachers_earnings_only (db : Store) :
  earnings_only db (snd (get_teachers faulty db))
  /\ (code (fst (get_teachers faulty db)) = 200 ->
      json (fst (get_teachers faulty db))
      = JTeachers (Teachers (snd (get_teachers faulty db))))
  /\ (code (fst (get_teachers faulty db)) = 200
      \/ fst (get_teachers faulty db)
         = mkResponse 500 (JMessage "Failed to fetch teachers")).
Proof.
  unfold get_teachers, try_catch, bind, Teacher_find_all, query.
  destruct (faulty Teacher_find db).
  { cbn. split; [ apply earnings_only_refl | split; [ discriminate | now right ] ]. }
  pose proof (for_of_earnings_only (Teachers db) db) as H.
  destruct (for_of (Teachers db) (recomputeTeacherEarnings faulty) db) as [[[] |] db1];
    cbn [snd] in H.
  - destruct (faulty Teacher_find db1); cbn.
    + split; [ exact H | split; [ discriminate | now right ] ].
    + split; [ exact H | split; [ reflexivity | now left ] ].
  - cbn. split; [ exact H | split; [ discriminate | now right ] ].
Qed.







Lemma save_totalEarnings_head (doc a : Teacher) (ts ts' : list Teacher) :
  teacher_id a <> teacher_id doc ->
  save_totalEarnings doc (a :: ts) = Some ts' ->
  exists tl, ts' = a :: tl.
Proof.
  intros Hne. cbn. apply id_eqb_neq in Hne. rewrite Hne.
  destruct (save_totalEarnings doc ts) as [l |]; [ | discriminate ].
  intros [= <-]. now exists l.
Qed.

Lemma recompute_keeps_head (x a : Teacher) (ts : list Teacher) (db : Store) :
  Teachers db = a :: ts ->
  teacher_id a <> teacher_id x ->
  exists tl, Teachers (snd (recomputeTeacherEarnings faulty x db)) = a :: tl.
Proof.
  intros Hts Hne.
  unfold recomputeTeacherEarnings, bind, Student_find_by_teacher,
    Sales_find_completed, query, Teacher_save_doc.
  destruct (faulty (Student_find (teacher_id x)) db); [ now exists ts | ].
  destruct (faulty (Sales_find _) db); [ now exists ts | ].
  destruct (faulty (Teacher_save _) db); [ now exists ts | ].
  destruct (Number.is_nan _); [ now exists ts | ].
  destruct (Number.strict_eq _ _); [ now exists ts | ].
  destruct (save_totalEarnings _ (Teachers db)) as [l |] eqn:E; [ | now exists ts ].
  rewrite Hts in E. apply save_totalEarnings_head in E; [ | exact Hne ].
  destruct E as [tl ->]. now exists tl.
Qed.

Lemma for_of_keeps_head (l : list Teacher) :
  forall (a : Teacher) (ts : list Teacher) (db : Store),
    Teachers db = a :: ts ->
    ~ In (teacher_id a) (map teacher_id l) ->
    exists tl, Teachers (snd (for_of l (recomputeTeacherEarnings faulty) db)) = a :: tl.
Proof.
  induction l as [| x l IH]; intros a ts db Hts Hn; cbn [for_of].
  - now exists ts.
  - unfold bind.
    assert (Hne : teacher_id a <> teacher_id x).
    { intros E. apply Hn. left. now symmetry. }
    destruct (recompute_keeps_head x a ts db Hts Hne) as [tl Htl].
    destruct (recomputeTeacherEarnings faulty x db) as [[[] |] db1]; cbn [snd] in *.
    + apply (IH a tl db1 Htl). intros H. apply Hn. now right.
    + now exists tl.
Qed.

(** X10.  A failed listing is not undone: when the calls for the first
    teacher succeed and the save of a later teacher fails, the answer is
    500 and the first teacher keeps the recomputed earnings. *)
Theorem get_teachers_no_rollback (db : Store) (first later : Teacher) (rest : list Teacher) :
  Teachers db = first :: rest ->
  unique_ids db ->
  In later rest ->
  faulty Teacher_find db = false ->
  faulty (Student_find (teacher_id first)) db = false ->
  (forall ids, faulty (Sales_find ids) db = false) ->
  faulty (Teacher_save (teacher_id first)) db = false ->
  (forall db', faulty (Teacher_save (teacher_id later)) db' = true) ->
  fst (get_teachers faulty db) = mkResponse 500 (JMessage "Failed to fetch teachers")
  /\ exists tl, Teachers (snd (get_teachers faulty db)) = recomputed db first :: tl.
Proof.
  intros Hts Hu Hin Hf1 Hf2 Hf3 Hf4 Hfail.
  unfold get_teachers, try_catch, bind, Teacher_find_all, query.
  rewrite Hf1, Hts. cbn [for_of]. unfold bind.
  assert (Hstep : recomputeTeacherEarnings faulty first db
                  = if Number.is_nan (expected_earnings db (teacher_id first))
                    then (Thrown, db)
                    else (Returned tt, with_Teachers (recomputed db first :: rest) db)).
  { unfold recomputeTeacherEarnings, bind, Student_find_by_teacher,
      Sales_find_completed, query, Teacher_save_doc.
    rewrite Hf2, Hf3, Hf4.
    rewrite (filter_ext _ _ (completed_sale_of_counts (teacher_id first) (Students db))).
    unfold recomputed. cbn zeta.
    change (earnings_of
              (sum_amounts
                 (filter (counts_toward (teacher_id first) (Students db)) (Sales db))))
      with (expected_earnings db (teacher_id first)).
    destruct (Number.is_nan _); [ reflexivity | ].
    destruct (Number.strict_eq _ _).
    - now rewrite <- Hts, with_Teachers_same.
    - rewrite Hts.
      rewrite (save_totalEarnings_at _ first [] rest); [ reflexivity | reflexivity | ].
      intros []. }
  rewrite Hstep.
  destruct (Number.is_nan (expected_earnings db (teacher_id first))) eqn:Hn.
  { cbn [fst snd]. split; [ reflexivity | ].
    exists rest. rewrite Hts. unfold recomputed. cbn zeta. now rewrite Hn. }
  set (db1 := with_Teachers (recomputed db first :: rest) db).
  pose proof (for_of_throws faulty later rest Hin Hfail db1) as Hthrow.
  assert (Hn' : ~ In (teacher_id (recomputed db first)) (map teacher_id rest)).
  { unfold unique_ids in Hu. rewrite Hts in Hu. cbn in Hu.
    rewrite recomputed_id. now inversion Hu. }
  destruct (for_of_keeps_head rest (recomputed db first) rest db1 eq_refl Hn') as [tl Htl].
  destruct (for_of rest (recomputeTeacherEarnings faulty) db1) as [[[] |] db2];
    cbn [fst snd] in *; [ discriminate | ].
  split; [ reflexivity | now exists tl ].
Qed.

End ListingMore.

Lemma two_teacher_store_unique : unique_ids two_teacher_store.
Proof.
  unfold unique_ids. cbn.
  constructor; [ intros [E | []]; discriminate E | ].
  constructor; [ intros [] | constructor ].
Qed.


Lemma get_teachers_no_rollback_witness :
  fst (get_teachers second_save_fails two_teacher_store)
  = mkResponse 500 (JMessage "Failed to fetch teachers")
  /\ exists tl, Teachers (snd (get_teachers second_save_fails two_teacher_store))
                = recomputed two_teacher_store example_teacher :: tl.
Proof.
  apply (get_teachers_no_rollback second_save_fails two_teacher_store
           example_teacher second_teacher [ second_teacher ]);
    try reflexivity.
  - exact two_teacher_store_unique.
  - left. reflexivity.
Defined.

(** ** More on update, creation and deletion *)

Lemma account_frame_refl (t : Teacher) : account_frame t t.
Proof. unfold account_frame. tauto. Qed.

Lemma apply_update_account (body : TeacherBody) (t : Teacher) :
  account_frame t (apply_update body t).
Proof. unfold account_frame. cbn. tauto. Qed.

Lemma apply_update_twice (body : TeacherBody) (t : Teacher) :
  apply_update body (apply_update body t) = apply_update body t.
Proof.
  unfold apply_update. cbn.
  destruct (body_name body), (body_email body), (body_phone body),
    (body_specialization body), (body_status body); reflexivity.
Qed.

Lemma apply_update_empty (t : Teacher) : apply_update empty_body t = t.
Proof. now destruct t. Qed.

(** Where [update_by_id] writes: the first document with the id. *)
Lemma update_by_id_split (id : ObjectId) (f : Teacher -> Teacher)
      (ts ts' : list Teacher) (u : Teacher) :
  update_by_id id f ts = Some (u, ts') ->
  exists pre t0 post,
    ts = pre ++ t0 :: post
    /\ ts' = pre ++ f t0 :: post
    /\ u = f t0
    /\ teacher_id t0 = id
    /\ (forall x, In x pre -> teacher_id x <> id).
Proof.
  revert ts'. induction ts as [| t ts IH]; cbn; intros ts' H; [ discriminate | ].
  destruct (id_eqb (teacher_id t) id) eqn:E.
  - injection H as <- <-. apply id_eqb_eq in E.
    exists [], t, ts. repeat split; [ exact E | intros x [] ].
  - apply id_eqb_neq in E.
    destruct (update_by_id id f ts) as [[u' l] |]; [ | discriminate ].
    injection H as <- <-.
    destruct (IH l eq_refl) as [pre [t0 [post [H1 [H2 [H3 [H4 H5]]]]]]].
    exists (t :: pre), t0, post. subst. repeat split; try reflexivity.
    intros x [<- | Hx]; [ exact E | now apply H5 ].
Qed.

Lemma update_by_id_at (id : ObjectId) (f : Teacher -> Teacher)
      (pre post : list Teacher) (t0 : Teacher) :
  teacher_id t0 = id ->
  (forall x, In x pre -> teacher_id x <> id) ->
  update_by_id id f (pre ++ t0 :: post) = Some (f t0, pre ++ f t0 :: post).
Proof.
  intros Hid. induction pre as [| a pre IH]; cbn; intros Hpre.
  - rewrite Hid, id_eqb_refl. reflexivity.
  - assert (E : id_eqb (teacher_id a) id = false).
    { apply id_eqb_neq, Hpre. now left. }
    rewrite E, IH; [ reflexivity | ]. intros x Hx. apply Hpre. now right.
Qed.

Lemma update_by_id_none (id : ObjectId) (f : Teacher -> Teacher) (ts : list Teacher) :
  (forall t, In t ts -> teacher_id t <> id) -> update_by_id id f ts = None.
Proof.
  induction ts as [| t ts IH]; cbn; intros H; [ reflexivity | ].
  assert (E : id_eqb (teacher_id t) id = false).
  { apply id_eqb_neq, H. now left. }
  rewrite E, IH; [ reflexivity | ]. intros x Hx. apply H. now right.
Qed.

Lemma delete_by_id_filter (id : ObjectId) (ts ts' : list Teacher) (d : Teacher) :
  delete_by_id id ts = Some (d, ts') ->
  NoDup (map teacher_id ts) ->
  ts' = filter (fun t => negb (id_eqb (teacher_id t) id)) ts.
Proof.
  revert ts'. induction ts as [| t ts IH]; cbn; intros ts' H Hnd; [ discriminate | ].
  inversion Hnd as [| x l Hnot Hnd']; subst.
  destruct (id_eqb (teacher_id t) id) eqn:E; cbn.
  - injection H as <- <-. apply id_eqb_eq in E.
    symmetry. apply forallb_filter_id, forallb_forall. intros x Hx.
    apply negb_true_iff, id_eqb_neq. intros Hid. apply Hnot.
    rewrite E, <- Hid. now apply in_map.
  - destruct (delete_by_id id ts) as [[d' l] |]; [ | discriminate ].
    injection H as <- <-. f_equal. now apply (IH l).
Qed.

Lemma same_id_same_teacher (ts : list Teacher) (t t' : Teacher) :
  NoDup (map teacher_id ts) ->
  In t' ts -> In t ts -> teacher_id t' = teacher_id t -> t' = t.
Proof.
  induction ts as [| a ts IH]; cbn; intros Hnd Hin' Hin Hid; [ contradiction | ].
  apply NoDup_cons_iff in Hnd. destruct Hnd as [Hnot Hnd].
  destruct Hin' as [E' | Hin'], Hin as [E | Hin].
  - congruence.
  - exfalso. apply Hnot. subst a. rewrite Hid. now apply in_map.
  - exfalso. apply Hnot. subst a. rewrite <- Hid. now apply in_map.
  - now apply IH.
Qed.

Lemma delete_by_id_length (id : ObjectId) (ts ts' : list Teacher) (d : Teacher) :
  delete_by_id id ts = Some (d, ts') -> List.length ts = S (List.length ts').
Proof.
  revert ts'. induction ts as [| a l IH]; cbn; intros ts' Hd; [ discriminate | ].
  destruct (id_eqb (teacher_id a) id).
  - injection Hd as _ E. now subst.
  - destruct (delete_by_id id l) as [[d' l'] |] eqn:E0; [ | discriminate ].
    injection Hd as Ed E. subst. cbn. f_equal. now apply (IH l').
Qed.

Section RoutesMore.

Variable isValid : string -> bool.
Variable castObjectId : string -> ObjectId.
Variable faulty : StoreOp -> Store -> bool.
Variable runValidators : TeacherBody -> bool.
Variable hashPassword : string -> string.
Variable newObjectId : Store -> ObjectId.
Variable defaultTotalEarnings : Number.number.

(** X11.  The three routes that take an id answer 400 "Invalid Teacher ID"
    to an invalid one, before any storage call and without a write. *)
Theorem invalid_id_rejected (id : string) (body : TeacherBody) (db : Store) :
  isValid id = false ->
  let invalid := (mkResponse 400 (JError "Invalid Teacher ID"), db) in
  get_teacher isValid castObjectId faulty id db = invalid
  /\ put_teacher isValid castObjectId faulty runValidators id body db = invalid
  /\ delete_teacher isValid castObjectId faulty id db = invalid.
Proof.
  intros Hv invalid. unfold get_teacher, put_teacher, delete_teacher.
  rewrite Hv. repeat split.
Qed.

(** X12.  GET /api/teachers/:teacherId never writes; for a valid id, and a
    lookup that does not throw, it answers 200 with the first stored
    teacher of that id, and 404 when there is none. *)
Theorem get_teacher_lookup (teacherId : string) (db : Store) :
  snd (get_teacher isValid castObjectId faulty teacherId db) = db
  /\ (isValid teacherId = true ->
      faulty (Teacher_findById (castObjectId teacherId)) db = false ->
      ((forall t, In t (Teachers db) -> teacher_id t <> castObjectId teacherId) ->
       fst (get_teacher isValid castObjectId faulty teacherId db)
       = mkResponse 404 (JError "Teacher not found"))
      /\ (forall t, In t (Teachers db) -> teacher_id t = castObjectId teacherId ->
            exists t', In t' (Teachers db)
                       /\ teacher_id t' = castObjectId teacherId
                       /\ (unique_ids db -> t' = t)
                       /\ fst (get_teacher isValid castObjectId faulty teacherId db)
                          = mkResponse 200 (JTeacher t'))).
Proof.
  unfold get_teacher.
  destruct (isValid teacherId); cbn [negb];
    [ | split; [ reflexivity | discriminate ] ].
  unfold try_catch, bind, Teacher_find_by_id, query.
  destruct (faulty (Teacher_findById (castObjectId teacherId)) db);
    [ split; [ reflexivity | discriminate ] | ].
  set (p := fun t : Teacher => id_eqb (teacher_id t) (castObjectId teacherId)).
  destruct (find p (Teachers db)) as [t' |] eqn:E; cbn.
  - split; [ reflexivity | ]. intros _ _. split.
    + intros Hno. apply find_some in E. destruct E as [Hin Hp].
      apply id_eqb_eq in Hp. exfalso. exact (Hno t' Hin Hp).
    + intros t Hin Hid. apply find_some in E. destruct E as [Hin' Hp].
      apply id_eqb_eq in Hp. exists t'. repeat split; try assumption.
      intros Hu. apply (same_id_same_teacher (Teachers db)); try assumption.
      congruence.
  - split; [ reflexivity | ]. intros _ _. split; [ reflexivity | ].
    intros t Hin Hid. pose proof (find_none _ _ E t Hin) as Hp.
    unfold p in Hp. rewrite Hid, id_eqb_refl in Hp. discriminate.
Qed.

(** The states an update can end in. *)
Lemma put_teacher_outcomes (id : string) (body : TeacherBody) (db : Store) :
  let r := put_teacher isValid castObjectId faulty runValidators id body db in
  (snd r = db /\ code (fst r) <> 200)
  \/ exists u ts,
      isValid id = true
      /\ runValidators body = true
      /\ (truthy (body_email body) = true ->
          find (fun t => (email t =? or_old (body_email body) "")%string
                         && negb (id_eqb (teacher_id t) (castObjectId id)))
               (Teachers db) = None)
      /\ update_by_id (castObjectId id) (apply_update body) (Teachers db) = Some (u, ts)
      /\ r = (mkResponse 200 (JTeacher u), with_Teachers ts db).
Proof.
  intros r. subst r. unfold put_teacher.
  destruct (isValid id); cbn [negb]; [ | left; split; [ reflexivity | discriminate ] ].
  unfold try_catch, bind, Teacher_find_email_ne, query, Teacher_update_by_id, ret.
  destruct (truthy (body_email body)) eqn:Ht; cbn beta;
    repeat (match goal with
            | |- context [faulty ?op ?st] => destruct (faulty op st) eqn:?
            | |- context [find ?f ?l] => destruct (find f l) eqn:?
            | |- context [runValidators ?b] => destruct (runValidators b) eqn:?
            | |- context [update_by_id ?a ?b ?c] =>
                destruct (update_by_id a b c) as [[? ?] |] eqn:?
            end; cbn [negb fst snd]);
    first [ left; split; [ reflexivity | discriminate ]
          | right; do 2 eexists; repeat split; first [ eassumption | discriminate ] ].
Qed.

Lemma update_frame (id : ObjectId) (body : TeacherBody) (ts ts' : list Teacher) (u : Teacher) :
  update_by_id id (apply_update body) ts = Some (u, ts') ->
  Forall2 account_frame ts ts' /\ map teacher_id ts' = map teacher_id ts.
Proof.
  intros H. apply update_by_id_split in H.
  destruct H as [pre [t0 [post [-> [-> _]]]]]. split.
  - apply Forall2_app; [ apply Forall2_same, account_frame_refl | ].
    constructor; [ apply apply_update_account | apply Forall2_same, account_frame_refl ].
  - rewrite !map_app. reflexivity.
Qed.

(** X13.  Whatever happens, PUT /api/teachers/:id leaves batches, students
    and sales alone and keeps every teacher in place with its id,
    password, role and earnings; it never adds or removes a teacher. *)
Theorem put_teacher_frame (id : string) (body : TeacherBody) (db : Store) :
  let db' := snd (put_teacher isValid castObjectId faulty runValidators id body db) in
  Forall2 account_frame (Teachers db) (Teachers db')
  /\ map teacher_id (Teachers db') = map teacher_id (Teachers db)
  /\ Batches db' = Batches db
  /\ Students db' = Students db
  /\ Sales db' = Sales db.
Proof.
  intros db'. subst db'.
  destruct (put_teacher_outcomes id body db) as [[Hs _] | [u [ts [_ [_ [_ [Hu Hr]]]]]]].
  - rewrite Hs. repeat split. apply Forall2_same, account_frame_refl.
  - rewrite Hr. cbn. destruct (update_frame _ _ _ _ _ Hu) as [H1 H2].
    repeat split; assumption.
Qed.

(** X14.  PUT on an id that no teacher has creates nothing: the store is
    as before and the answer is never 200; the email check comes first,
    so an email in use answers the duplicate-email 400, and otherwise the
    answer is 404. *)
Theorem put_teacher_unknown_id (id : string) (body : TeacherBody) (db : Store) :
  (forall t, In t (Teachers db) -> teacher_id t <> castObjectId id) ->
  let r := put_teacher isValid castObjectId faulty runValidators id body db in
  snd r = db
  /\ code (fst r) <> 200
  /\ (isValid id = true ->
      (forall e, faulty (Teacher_findOne e (Some (castObjectId id))) db = false) ->
      (forall e t, body_email body = Some e -> e <> ""%string ->
                   In t (Teachers db) -> email t = e -> fst r = email_conflict)
      /\ (faulty (Teacher_findByIdAndUpdate (castObjectId id)) db = false ->
          runValidators body = true ->
          (forall t, In t (Teachers db) -> body_email body <> Some (email t)) ->
          fst r = mkResponse 404 (JError "Teacher not found"))).
Proof.
  intros Hno r. subst r.
  destruct (put_teacher_outcomes id body db) as [[Hs Hc] | [u [ts [_ [_ [_ [Hu _]]]]]]].
  2:{ rewrite (update_by_id_none _ _ _ Hno) in Hu. discriminate. }
  split; [ exact Hs | split; [ exact Hc | ] ].
  intros Hv Hf. rewrite (put_teacher_stages _ _ _ _ id body db Hv Hf). split.
  - intros e t He Hne Hin Hemail.
    assert (Ht : truthy (body_email body) = true) by (apply truthy_spec; eauto).
    rewrite Ht, He. cbn [or_old].
    destruct (find_some_ex
                (fun t0 => (email t0 =? e)%string
                           && negb (id_eqb (teacher_id t0) (castObjectId id)))
                (Teachers db) t Hin) as [y Hy].
    { apply andb_true_iff. split; [ now apply String.eqb_eq | ].
      apply negb_true_iff, id_eqb_neq. now apply Hno. }
    rewrite Hy. reflexivity.
  - intros Hfu Hrv Hfree.
    assert (Hnone : (if truthy (body_email body)
                     then find (fun t => (email t =? or_old (body_email body) "")%string
                                         && negb (id_eqb (teacher_id t) (castObjectId id)))
                               (Teachers db)
                     else None) = None).
    { destruct (truthy (body_email body)) eqn:Ht; [ | reflexivity ].
      apply truthy_spec in Ht. destruct Ht as [e [He _]]. rewrite He. cbn [or_old].
      apply find_none_iff. intros x Hx. apply andb_false_iff. left.
      apply String.eqb_neq. intros E. apply (Hfree x Hx). congruence. }
    rewrite Hnone. unfold try_catch, bind, Teacher_update_by_id.
    rewrite Hfu, Hrv. cbn [negb]. rewrite (update_by_id_none _ _ _ Hno). reflexivity.
Qed.

(** X15.  PUT is idempotent: after an update answered with 200, the same
    request, with no failing call, gives the same answer and leaves the
    store as the first one left it. *)
Theorem put_teacher_idempotent (id : string) (body : TeacherBody) (db : Store) :
  let r := put_teacher isValid castObjectId faulty runValidators id body db in
  code (fst r) = 200 ->
  (forall e, faulty (Teacher_findOne e (Some (castObjectId id))) (snd r) = false) ->
  faulty (Teacher_findByIdAndUpdate (castObjectId id)) (snd r) = false ->
  put_teacher isValid castObjectId faulty runValidators id body (snd r) = r.
Proof.
  intros r Hok Hf Hfu. subst r.
  destruct (put_teacher_outcomes id body db)
    as [[_ Hc] | [u [ts [Hv [Hrv [Hfind [Hu Hr]]]]]]]; [ contradiction | ].
  rewrite Hr in *. cbn [fst snd] in *.
  apply update_by_id_split in Hu.
  destruct Hu as [pre [t0 [post [Hts [-> [-> [Hid Hpre]]]]]]].
  rewrite (put_teacher_stages _ _ _ _ id body _ Hv Hf).
  cbn [Teachers with_Teachers].
  assert (Hnone : (if truthy (body_email body)
                   then find (fun t => (email t =? or_old (body_email body) "")%string
                                       && negb (id_eqb (teacher_id t) (castObjectId id)))
                             (pre ++ apply_update body t0 :: post)
                   else None) = None).
  { destruct (truthy (body_email body)) eqn:Ht; [ | reflexivity ].
    specialize (Hfind eq_refl). rewrite Hts in Hfind.
    rewrite find_none_iff in Hfind |- *.
    intros x Hx. apply in_app_or in Hx. destruct Hx as [Hx | [<- | Hx]].
    - apply Hfind, in_or_app. now left.
    - cbn [teacher_id apply_update]. rewrite Hid, id_eqb_refl. apply andb_false_r.
    - apply Hfind, in_or_app. right. now right. }
  rewrite Hnone. unfold try_catch, bind, Teacher_update_by_id.
  rewrite Hfu, Hrv. cbn [negb Teachers with_Teachers].
  rewrite (update_by_id_at (castObjectId id) (apply_update body) pre post
                           (apply_update body t0) Hid Hpre).
  rewrite apply_update_twice. reflexivity.
Qed.

(** X16.  PUT with a body that sets no field is a read: for the id of a
    stored teacher, with no failing call, it answers 200 with that
    teacher and leaves the store as it was. *)
Theorem put_teacher_empty_body (id : string) (db : Store) (t : Teacher) :
  isValid id = true ->
  In t (Teachers db) ->
  teacher_id t = castObjectId id ->
  faulty (Teacher_findByIdAndUpdate (castObjectId id)) db = false ->
  runValidators empty_body = true ->
  exists t0,
    In t0 (Teachers db) /\ teacher_id t0 = castObjectId id
    /\ put_teacher isValid castObjectId faulty runValidators id empty_body db
       = (mkResponse 200 (JTeacher t0), db).
Proof.
  intros Hv Hin Hid Hfu Hrv.
  destruct (update_by_id_some (castObjectId id) (apply_update empty_body) (Teachers db) t
                              Hin Hid) as [t1 [ts' [Hu _]]].
  destruct (update_by_id_split _ _ _ _ _ Hu)
    as [pre [t0 [post [Hts [Hts' [Hu1 [Hid0 _]]]]]]].
  rewrite !apply_update_empty in Hu1. rewrite apply_update_empty in Hts'.
  exists t0. split; [ rewrite Hts; apply in_or_app; right; now left | ].
  split; [ exact Hid0 | ].
  unfold put_teacher. rewrite Hv. cbn [negb].
  unfold try_catch, bind, Teacher_update_by_id. cbn [truthy body_email empty_body ret].
  rewrite Hfu, Hrv. cbn [negb]. rewrite Hu. cbn.
  rewrite Hts', <- Hts, with_Teachers_same, apply_update_empty, Hu1. reflexivity.
Qed.

(** X17.  PUT keeps emails unique: from a store where teachers have
    distinct ids and distinct emails, whatever happens, the emails are
    still distinct afterwards, unless the body sets the empty email. *)
Theorem put_teacher_keeps_emails_unique (id : string) (body : TeacherBody) (db : Store) :
  unique_ids db ->
  NoDup (map email (Teachers db)) ->
  body_email body <> Some ""%string ->
  NoDup (map email
             (Teachers (snd (put_teacher isValid castObjectId faulty runValidators
                                         id body db)))).
Proof.
  intros Hu Hnd Hbody.
  destruct (put_teacher_outcomes id body db)
    as [[Hs _] | [u [ts [_ [_ [Hfind [Hupd Hr]]]]]]].
  - now rewrite Hs.
  - rewrite Hr. cbn [snd Teachers with_Teachers].
    apply update_by_id_split in Hupd.
    destruct Hupd as [pre [t0 [post [Hts [-> [_ [Hid Hpre]]]]]]].
    unfold unique_ids in Hu. rewrite Hts in Hu, Hnd, Hfind.
    rewrite map_app in *. cbn [map] in *.
    destruct (body_email body) as [e |] eqn:He.
    2:{ cbn. rewrite He. exact Hnd. }
    assert (Hne : e <> ""%string) by congruence.
    assert (Ht : truthy (Some e) = true) by (apply truthy_spec; eauto).
    specialize (Hfind Ht). cbn [or_old] in Hfind. rewrite find_none_iff in Hfind.
    assert (Hother : forall x, In x (pre ++ t0 :: post) -> email x = e ->
                               teacher_id x = castObjectId id).
    { intros x Hx Hemail. specialize (Hfind x Hx).
      apply andb_false_iff in Hfind. destruct Hfind as [Hf | Hf].
      - apply String.eqb_neq in Hf. contradiction.
      - apply negb_false_iff in Hf. now apply id_eqb_eq. }
    replace (email (apply_update body t0)) with e by (cbn; now rewrite He).
    apply (NoDup_Add (Add_app e (map email pre) (map email post))).
    split; [ now apply NoDup_remove_1 in Hnd | ].
    intros Hin. apply in_app_or in Hin. destruct Hin as [Hin | Hin];
      apply in_map_iff in Hin; destruct Hin as [x [Hemail Hx]].
    + apply (Hpre x Hx), Hother; [ apply in_or_app; now left | exact Hemail ].
    + apply NoDup_remove_2 in Hu. apply Hu, in_or_app. right.
      rewrite Hid, <- (Hother x); [ now apply in_map | | exact Hemail ].
      apply in_or_app. right. now right.
Qed.

(** The states a creation can end in. *)
Lemma post_teacher_outcomes (body : TeacherBody) (db : Store) :
  let r := post_teacher faulty hashPassword newObjectId defaultTotalEarnings body db in
  let new := new_teacher hashPassword newObjectId defaultTotalEarnings body db in
  (snd r = db /\ code (fst r) <> 201)
  \/ (required_present body = true
      /\ find (fun t => (email t =? or_old (body_email body) "")%string) (Teachers db) = None
      /\ r = (mkResponse 201 (JTeacher new), with_Teachers (Teachers db ++ [new]) db)).
Proof.
  intros r new. subst r new.
  unfold post_teacher, required_present, new_teacher, try_catch, bind,
    Teacher_find_email, bcrypt_hash, Teacher_save_new, query, ret.
  destruct (truthy (body_name body)), (truthy (body_email body)),
    (truthy (body_phone body)), (truthy (body_password body));
    cbn [negb orb andb];
    try (left; split; [ reflexivity | discriminate ]).
  repeat (match goal with
          | |- context [faulty ?op ?st] => destruct (faulty op st) eqn:?
          | |- context [find ?f ?l] => destruct (find f l) eqn:?
          end; cbn [fst snd teacher_id]);
    first [ left; split; [ reflexivity | discriminate ]
          | right; repeat split ].
Qed.

(** X18.  A creation with the four required fields, an email no teacher
    has and no failing call answers 201 and appends one teacher: the one
    the answer carries, with the submitted name, email and phone, the
    hashed password, the role "Teacher", and the status "active" when
    none is given. *)
Theorem post_teacher_creates (body : TeacherBody) (db : Store) :
  required_present body = true ->
  (forall t, In t (Teachers db) -> body_email body <> Some (email t)) ->
  (forall op, faulty op db = false) ->
  let r := post_teacher faulty hashPassword newObjectId defaultTotalEarnings body db in
  exists new,
    r = (mkResponse 201 (JTeacher new), with_Teachers (Teachers db ++ [new]) db)
    /\ body_name body = Some (name new)
    /\ body_email body = Some (email new)
    /\ body_phone body = Some (phone new)
    /\ specialization new = body_specialization body
    /\ password new = hashPassword (or_old (body_password body) "")
    /\ role new = "Teacher"%string
    /\ (truthy (body_status body) = true -> body_status body = Some (status new))
    /\ (truthy (body_status body) = false -> status new = "active"%string).
Proof.
  intros Hreq Hfree Hf r. subst r.
  unfold required_present in Hreq.
  apply andb_true_iff in Hreq. destruct Hreq as [Hreq Hpw].
  apply andb_true_iff in Hreq. destruct Hreq as [Hreq Hph].
  apply andb_true_iff in Hreq. destruct Hreq as [Hn He].
  exists (new_teacher hashPassword newObjectId defaultTotalEarnings body db).
  split.
  - unfold post_teacher, try_catch, bind, Teacher_find_email, bcrypt_hash,
      Teacher_save_new, query, ret.
    rewrite Hn, He, Hph, Hpw. cbn [negb orb]. rewrite !Hf.
    assert (Hnone : find (fun t => (email t =? or_old (body_email body) "")%string)
                         (Teachers db) = None).
    { apply find_none_iff. intros x Hx. apply String.eqb_neq. intros E.
      apply (Hfree x Hx). apply truthy_spec in He. destruct He as [e [He _]].
      rewrite He in *. cbn in E. congruence. }
    rewrite Hnone. cbn [teacher_id]. rewrite ?Hf. cbn beta iota.
    rewrite ?Hf. reflexivity.
  - apply truthy_spec in Hn, He, Hph. destruct Hn as [n [Hn _]], He as [e [He _]],
      Hph as [ph [Hph _]].
    unfold new_teacher. cbn. rewrite Hn, He, Hph. cbn.
    repeat split.
    + intros Hst. rewrite Hst. apply truthy_spec in Hst.
      destruct Hst as [s [Hs _]]. now rewrite Hs.
    + intros Hst. now rewrite Hst.
Qed.

(** X19.  A creation that lacks the name, the email, the phone or the
    password answers 400 with the required-fields message and writes
    nothing, before any storage call: failing storage does not turn it
    into a 500. *)
Theorem post_teacher_missing_field (body : TeacherBody) (db : Store) :
  required_present body = false ->
  post_teacher faulty hashPassword newObjectId defaultTotalEarnings body db
  = (mkResponse 400 (JMessage "Name, email, phone, and password are required."), db).
Proof.
  intros Hreq. unfold post_teacher, try_catch, required_present in *.
  destruct (truthy (body_name body)), (truthy (body_email body)),
    (truthy (body_phone body)), (truthy (body_password body));
    first [ discriminate Hreq | reflexivity ].
Qed.

(** X20.  Whatever happens, a creation adds at most one teacher at the end
    and changes nothing else; teachers with distinct emails keep
    distinct emails. *)
Theorem post_teacher_frame (body : TeacherBody) (db : Store) :
  let db' := snd (post_teacher faulty hashPassword newObjectId defaultTotalEarnings
                               body db) in
  (exists added, Teachers db' = Teachers db ++ added /\ (List.length added <= 1)%nat)
  /\ Batches db' = Batches db
  /\ Students db' = Students db
  /\ Sales db' = Sales db
  /\ (NoDup (map email (Teachers db)) -> NoDup (map email (Teachers db'))).
Proof.
  intros db'. subst db'.
  destruct (post_teacher_outcomes body db) as [[Hs _] | [_ [Hnone Hr]]].
  - rewrite Hs. repeat split; [ | tauto ].
    exists []. rewrite app_nil_r. split; [ reflexivity | cbn; lia ].
  - rewrite Hr. cbn [snd Teachers Batches Students Sales with_Teachers].
    repeat split.
    + eexists. split; [ reflexivity | cbn; lia ].
    + intros Hnd. rewrite map_app. cbn [map].
      rewrite <- (app_nil_r (_ :: [])). 
      apply (NoDup_Add (Add_app _ (map email (Teachers db)) [])).
      rewrite app_nil_r. split; [ exact Hnd | ].
      intros Hin. apply in_map_iff in Hin. destruct Hin as [x [Hemail Hx]].
      rewrite find_none_iff in Hnone. specialize (Hnone x Hx).
      apply String.eqb_neq in Hnone. apply Hnone. rewrite Hemail. reflexivity.
Qed.

Lemma find_after {A} (f : A -> bool) (l : list A) (x : A) :
  (forall y, In y l -> f y = false) -> f x = true -> find f (l ++ [x]) = Some x.
Proof.
  intros Hl Hx. induction l as [| a l IH]; cbn.
  - now rewrite Hx.
  - rewrite (Hl a (or_introl eq_refl)). apply IH.
    intros y Hy. apply Hl. now right.
Qed.

(** X21.  After a creation answered with 201, a second creation with the
    same email (and the required fields) answers 400 with the
    duplicate-email message and writes nothing. *)
Theorem post_teacher_then_duplicate (body again : TeacherBody) (db : Store) :
  let r := post_teacher faulty hashPassword newObjectId defaultTotalEarnings body db in
  code (fst r) = 201 ->
  body_email again = body_email body ->
  required_present again = true ->
  (forall e, faulty (Teacher_findOne e None) (snd r) = false) ->
  post_teacher faulty hashPassword newObjectId defaultTotalEarnings again (snd r)
  = (mkResponse 400 (JMessage "Teacher with this email already exists"), snd r).
Proof.
  intros r Hok Hsame Hreq Hf. subst r.
  destruct (post_teacher_outcomes body db) as [[_ Hc] | [_ [_ Hr]]]; [ contradiction | ].
  rewrite Hr in *. cbn [fst snd] in *.
  unfold required_present in Hreq.
  apply andb_true_iff in Hreq. destruct Hreq as [Hreq Hpw].
  apply andb_true_iff in Hreq. destruct Hreq as [Hreq Hph].
  apply andb_true_iff in Hreq. destruct Hreq as [Hn He].
  unfold post_teacher, try_catch, bind, Teacher_find_email, query.
  rewrite Hn, He, Hph, Hpw. cbn [negb orb]. rewrite Hf.
  cbn [Teachers with_Teachers].
  set (new := new_teacher hashPassword newObjectId defaultTotalEarnings body db).
  destruct (find_some_ex (fun t => (email t =? or_old (body_email again) "")%string)
                         (Teachers db ++ [new]) new) as [y Hy].
  - apply in_or_app. right. now left.
  - rewrite Hsame. apply String.eqb_refl.
  - rewrite Hy. reflexivity.
Qed.

(** X22.  A created teacher can be read back: after a creation answered
    with 201 whose new id no stored teacher had, GET with that id
    answers 200 with the very teacher the creation answered with. *)
Theorem post_teacher_then_get (body : TeacherBody) (db : Store) (teacherId : string) :
  let r := post_teacher faulty hashPassword newObjectId defaultTotalEarnings body db in
  code (fst r) = 201 ->
  (forall t, In t (Teachers db) -> teacher_id t <> newObjectId db) ->
  isValid teacherId = true ->
  castObjectId teacherId = newObjectId db ->
  faulty (Teacher_findById (newObjectId db)) (snd r) = false ->
  exists new,
    fst r = mkResponse 201 (JTeacher new)
    /\ get_teacher isValid castObjectId faulty teacherId (snd r)
       = (mkResponse 200 (JTeacher new), snd r).
Proof.
  intros r Hok Hfresh Hv Hcast Hf. subst r.
  destruct (post_teacher_outcomes body db) as [[_ Hc] | [_ [_ Hr]]]; [ contradiction | ].
  rewrite Hr in *. cbn [fst snd] in *.
  eexists. split; [ reflexivity | ].
  unfold get_teacher. rewrite Hv. cbn [negb].
  unfold try_catch, bind, Teacher_find_by_id, query. rewrite Hcast, Hf.
  cbn [Teachers with_Teachers]. rewrite find_after; [ reflexivity | | ].
  - intros y Hy. apply id_eqb_neq. now apply Hfresh.
  - apply id_eqb_refl.
Qed.

(** X23.  A deletion answered with 200 removes the teacher and no other:
    with distinct ids, what is left is the former list without the
    teacher of that id, in order. *)
Theorem delete_teacher_removes (id : string) (db : Store) :
  unique_ids db ->
  let r := delete_teacher isValid castObjectId faulty id db in
  code (fst r) = 200 ->
  Teachers (snd r)
  = filter (fun t => negb (id_eqb (teacher_id t) (castObjectId id))) (Teachers db)
  /\ (exists d, In d (Teachers db) /\ teacher_id d = castObjectId id)
  /\ (forall t, In t (Teachers (snd r)) -> teacher_id t <> castObjectId id)
  /\ unique_ids (snd r).
Proof.
  intros Hu r Hok. subst r.
  destruct (delete_teacher_outcomes isValid castObjectId faulty id db)
    as [[_ Hc] | [d [ts [_ [Hd [[_ Hc] | [[_ Hc] | [Hdb _]]]]]]]];
    try congruence.
  rewrite Hdb. cbn [Teachers with_Students with_Batches with_Teachers].
  pose proof (delete_by_id_filter _ _ _ _ Hd Hu) as Hts.
  destruct (delete_by_id_some _ _ _ _ Hd Hu) as [Hid [Hin Hgone]].
  repeat split.
  - exact Hts.
  - now exists d.
  - exact Hgone.
  - unfold unique_ids. cbn [Teachers with_Students with_Batches with_Teachers].
    rewrite Hts. clear - Hu. unfold unique_ids in Hu.
    induction (Teachers db) as [| a l IH]; cbn; [ constructor | ].
    cbn in Hu. apply NoDup_cons_iff in Hu. destruct Hu as [Hnot Hnd].
    destruct (negb _); [ | now apply IH ].
    cbn. constructor; [ | now apply IH ].
    intros Hin. apply Hnot. apply in_map_iff in Hin.
    destruct Hin as [x [Hx Hin]]. apply filter_In in Hin.
    rewrite <- Hx. apply in_map. tauto.
Qed.

(** X24.  A deletion is not undone when the cleanup fails: if the teacher
    is found and the update of the batches throws, the answer is 500,
    the teacher is gone, and batches and students still hold the id. *)
Theorem delete_teacher_not_atomic (id : string) (db : Store) (t : Teacher) :
  isValid id = true ->
  In t (Teachers db) ->
  teacher_id t = castObjectId id ->
  faulty (Teacher_findByIdAndDelete (castObjectId id)) db = false ->
  (forall db', faulty (Batch_updateMany (castObjectId id)) db' = true) ->
  let r := delete_teacher isValid castObjectId faulty id db in
  fst r = mkResponse 500 (JError "Server Error")
  /\ (exists d, delete_by_id (castObjectId id) (Teachers db) = Some (d, Teachers (snd r)))
  /\ (List.length (Teachers db) = S (List.length (Teachers (snd r))))
  /\ Batches (snd r) = Batches db
  /\ Students (snd r) = Students db.
Proof.
  intros Hv Hin Hid Hfd Hfb r. subst r.
  unfold delete_teacher. rewrite Hv. cbn [negb].
  unfold try_catch, bind, Teacher_delete_by_id, Batch_unset_teacher. rewrite Hfd.
  destruct (delete_by_id (castObjectId id) (Teachers db)) as [[d ts] |] eqn:Hd.
  - rewrite Hfb. cbn [fst snd Teachers Batches Students with_Teachers].
    split; [ reflexivity | ].
    split; [ now exists d | ].
    split; [ | split; reflexivity ].
    exact (delete_by_id_length _ _ _ _ Hd).
  - exfalso. rewrite delete_by_id_none in Hd. exact (Hd t Hin Hid).
Qed.

(** X25.  A deleted teacher cannot be read back: after a deletion answered
    with 200, with distinct ids, GET with the same id answers 404. *)
Theorem delete_teacher_then_get (id : string) (db : Store) :
  unique_ids db ->
  let r := delete_teacher isValid castObjectId faulty id db in
  code (fst r) = 200 ->
  faulty (Teacher_findById (castObjectId id)) (snd r) = false ->
  get_teacher isValid castObjectId faulty id (snd r)
  = (mkResponse 404 (JError "Teacher not found"), snd r).
Proof.
  intros Hu r Hok Hf. subst r.
  destruct (delete_teacher_outcomes isValid castObjectId faulty id db)
    as [[_ Hc] | [d [ts [Hv [Hd [[_ Hc] | [[_ Hc] | [Hdb _]]]]]]]];
    try congruence.
  rewrite Hdb in *.
  unfold get_teacher. rewrite Hv. cbn [negb].
  unfold try_catch, bind, Teacher_find_by_id, query. rewrite Hf.
  cbn [Teachers with_Students with_Batches with_Teachers].
  destruct (delete_by_id_some _ _ _ _ Hd Hu) as [_ [_ Hgone]].
  assert (Hnone : find (fun t => id_eqb (teacher_id t) (castObjectId id)) ts = None).
  { apply find_none_iff. intros x Hx. apply id_eqb_neq. now apply Hgone. }
  rewrite Hnone. reflexivity.
Qed.

End RoutesMore.

Lemma example_store_unique : unique_ids example_store.
Proof. unfold unique_ids. cbn. constructor; [ intros [] | constructor ]. Qed.

Lemma invalid_id_rejected_witness :
  hex24 "not-an-id" = false
  /\ delete_teacher hex24 cast_text always_faulty "not-an-id" example_store
     = (mkResponse 400 (JError "Invalid Teacher ID"), example_store).
Proof.
  split; [ reflexivity | ].
  exact (proj2 (proj2 (invalid_id_rejected hex24 cast_text always_faulty accept_all
                         "not-an-id" empty_body example_store eq_refl))).
Defined.

Lemma get_teacher_lookup_witness :
  exists t', fst (get_teacher hex24 cast_text never_faulty example_teacher_id example_store)
             = mkResponse 200 (JTeacher t')
             /\ (unique_ids example_store -> t' = example_teacher).
Proof.
  destruct (proj2 (proj2 (get_teacher_lookup hex24 cast_text never_faulty
                            example_teacher_id example_store) eq_refl eq_refl)
                  example_teacher (or_introl eq_refl) eq_refl)
    as [t' [_ [_ [Hsame Hr]]]].
  exists t'. split; assumption.
Defined.

Lemma put_teacher_unknown_id_witness :
  let r := put_teacher hex24 cast_text never_faulty accept_all absent_id
                       (email_only (email second_teacher)) two_teacher_store in
  snd r = two_teacher_store /\ fst r = email_conflict.
Proof.
  intros r.
  assert (Hno : forall t, In t (Teachers two_teacher_store) ->
                          teacher_id t <> cast_text absent_id).
  { intros t [<- | [<- | []]]; discriminate. }
  destruct (put_teacher_unknown_id hex24 cast_text never_faulty accept_all absent_id
              (email_only (email second_teacher)) two_teacher_store Hno)
    as [Hs [_ Hresp]].
  split; [ exact Hs | ].
  refine (proj1 (Hresp eq_refl (fun _ => eq_refl)) _ second_teacher eq_refl _ _ eq_refl).
  - discriminate.
  - right. left. reflexivity.
Defined.

Lemma put_teacher_idempotent_witness :
  let put := put_teacher hex24 cast_text never_faulty accept_all example_teacher_id
                         (email_only "jamie@example.com") in
  code (fst (put two_teacher_store)) = 200
  /\ put (snd (put two_teacher_store)) = put two_teacher_store.
Proof.
  intros put. split; [ reflexivity | ].
  exact (put_teacher_idempotent hex24 cast_text never_faulty accept_all example_teacher_id
           (email_only "jamie@example.com") two_teacher_store
           eq_refl (fun _ => eq_refl) eq_refl).
Defined.

Lemma put_teacher_empty_body_witness :
  exists t0,
    In t0 (Teachers two_teacher_store) /\ teacher_id t0 = example_teacher_id
    /\ put_teacher hex24 cast_text never_faulty accept_all example_teacher_id
                   empty_body two_teacher_store
       = (mkResponse 200 (JTeacher t0), two_teacher_store).
Proof.
  exact (put_teacher_empty_body hex24 cast_text never_faulty accept_all example_teacher_id
           two_teacher_store example_teacher eq_refl (or_introl eq_refl) eq_refl
           eq_refl eq_refl).
Defined.

Lemma two_teacher_store_emails : NoDup (map email (Teachers two_teacher_store)).
Proof.
  cbn. constructor; [ intros [E | []]; discriminate E | ].
  constructor; [ intros [] | constructor ].
Qed.

Lemma put_teacher_keeps_emails_unique_witness :
  NoDup (map email
             (Teachers (snd (put_teacher hex24 cast_text never_faulty accept_all
                                         example_teacher_id
                                         (email_only "jamie@example.com")
                                         two_teacher_store)))).
Proof.
  apply put_teacher_keeps_emails_unique.
  - exact two_teacher_store_unique.
  - exact two_teacher_store_emails.
  - discriminate.
Defined.

Lemma post_teacher_creates_witness :
  exists new,
    post_teacher never_faulty (fun pw => ("$2b$10$" ++ pw)%string) (fun _ => absent_id)
                 Number.zero example_body example_store
    = (mkResponse 201 (JTeacher new),
       with_Teachers (Teachers example_store ++ [new]) example_store)
    /\ password new = "$2b$10$secret"%string
    /\ role new = "Teacher"%string
    /\ status new = "active"%string.
Proof.
  destruct (post_teacher_creates never_faulty (fun pw => ("$2b$10$" ++ pw)%string)
              (fun _ => absent_id) Number.zero example_body example_store eq_refl)
    as [new [Hr [_ [_ [_ [_ [Hpw [Hrole [_ Hst]]]]]]]]].
  - intros t [<- | []]. discriminate.
  - intros op. reflexivity.
  - exists new. repeat split; [ exact Hr | exact Hpw | exact Hrole | exact (Hst eq_refl) ].
Defined.

Lemma post_teacher_missing_field_witness :
  post_teacher always_faulty (fun pw => pw) (fun _ => absent_id) Number.zero
               (email_only "robin.roe@example.com") example_store
  = (mkResponse 400 (JMessage "Name, email, phone, and password are required."),
     example_store).
Proof.
  exact (post_teacher_missing_field always_faulty (fun pw => pw) (fun _ => absent_id)
           Number.zero (email_only "robin.roe@example.com") example_store eq_refl).
Defined.

Lemma post_teacher_then_duplicate_witness :
  let post := post_teacher never_faulty (fun pw => pw) (fun _ => absent_id) Number.zero
                           example_body in
  code (fst (post example_store)) = 201
  /\ post (snd (post example_store))
     = (mkResponse 400 (JMessage "Teacher with this email already exists"),
        snd (post example_store)).
Proof.
  intros post. split; [ reflexivity | ].
  exact (post_teacher_then_duplicate never_faulty (fun pw => pw) (fun _ => absent_id)
           Number.zero example_body example_body example_store
           eq_refl eq_refl eq_refl (fun _ => eq_refl)).
Defined.

Lemma post_teacher_then_get_witness :
  let r := post_teacher never_faulty (fun pw => pw) (fun _ => absent_id) Number.zero
                        example_body example_store in
  exists new,
    fst r = mkResponse 201 (JTeacher new)
    /\ get_teacher hex24 cast_text never_faulty absent_id (snd r)
       = (mkResponse 200 (JTeacher new), snd r).
Proof.
  intros r.
  refine (post_teacher_then_get hex24 cast_text never_faulty (fun pw => pw)
            (fun _ => absent_id) Number.zero example_body example_store absent_id
            eq_refl _ eq_refl eq_refl eq_refl).
  intros t [<- | []]. discriminate.
Defined.

Lemma delete_teacher_removes_witness :
  let r := delete_teacher hex24 cast_text never_faulty example_teacher_id
                          two_teacher_store in
  code (fst r) = 200 /\ Teachers (snd r) = [ second_teacher ].
Proof.
  intros r. split; [ reflexivity | ].
  exact (proj1 (delete_teacher_removes hex24 cast_text never_faulty example_teacher_id
                  two_teacher_store two_teacher_store_unique eq_refl)).
Defined.

Lemma delete_teacher_not_atomic_witness :
  let r := delete_teacher hex24 cast_text batch_cleanup_fails example_teacher_id
                          example_store in
  fst r = mkResponse 500 (JError "Server Error")
  /\ Teachers (snd r) = []
  /\ Batches (snd r) = Batches example_store
  /\ exists b, In b (Batches (snd r)) /\ teacher b = Some example_teacher_id.
Proof.
  intros r.
  destruct (delete_teacher_not_atomic hex24 cast_text batch_cleanup_fails
              example_teacher_id example_store example_teacher
              eq_refl (or_introl eq_refl) eq_refl eq_refl (fun _ => eq_refl))
    as [Hr [_ [_ [Hb _]]]].
  split; [ exact Hr | ]. split; [ reflexivity | ]. split; [ exact Hb | ].
  eexists. split; [ left; reflexivity | reflexivity ].
Defined.

Lemma delete_teacher_then_get_witness :
  let r := delete_teacher hex24 cast_text never_faulty example_teacher_id example_store in
  code (fst r) = 200
  /\ get_teacher hex24 cast_text never_faulty example_teacher_id (snd r)
     = (mkResponse 404 (JError "Teacher not found"), snd r).
Proof.
  intros r. split; [ reflexivity | ].
  exact (delete_teacher_then_get hex24 cast_text never_faulty example_teacher_id
           example_store example_store_unique eq_refl eq_refl).
Defined.

(** ** The sign of the revenue cells *)

Lemma binary_round_aux_sign (sx : bool) (mx ex : Z) (lx : location) :
  Number.below_zero (binary_round_aux Number.prec Number.emax sx mx ex lx) = true ->
  sx = true.
Proof.
  unfold binary_round_aux.
  destruct (shr_fexp _ _ mx ex lx) as [mrs e'].
  destruct (shr_fexp _ _ _ e' loc_Exact) as [mrs'' e''].
  destruct (shr_m mrs''); try (cbn; discriminate).
  match goal with |- context [if ?c then _ else _] => destruct c end;
    cbn; auto.
Qed.

Lemma mul_literal_sign (revenue : Number.number) (m : positive) (e : Z) :
  Number.below_zero revenue = false ->
  Number.below_zero (Number.mul revenue (S754_finite false m e)) = false.
Proof.
  intros Hr. destruct revenue as [s | s | | s mr er]; cbn in *; try reflexivity.
  - subst s. reflexivity.
  - subst s. apply not_true_iff_false. intros H.
    apply binary_round_aux_sign in H. discriminate.
Qed.

(** The text of [x.toFixed(2)] starts with "-" only for [x < 0]. *)
Lemma toFixed2_sign (x : Number.number) :
  Number.below_zero x = false -> Number.shows_minus (Number.toFixed2 x) = false.
Proof.
  destruct x as [s | s | | s m e]; unfold Number.toFixed2; cbn; intros H;
    try assumption; try reflexivity.
  destruct (Number.at_least_1e21 m e); cbn; assumption.
Qed.

(** X26.  For a revenue that is not below zero (a positive number, a
    zero, +Infinity or NaN), neither revenue cell shows a minus sign,
    whatever toFixed prints: digits, exponent notation, "Infinity" or
    "NaN". *)
Theorem revenue_cells_no_minus (revenue : Number.number) :
  Number.below_zero revenue = false ->
  Number.shows_minus (teacherShare revenue) = false
  /\ Number.shows_minus (platformShare revenue) = false.
Proof.
  intros Hr. unfold teacherShare, platformShare.
  rewrite lit_0_2_bits, lit_0_3_bits.
  split; apply toFixed2_sign; now apply mul_literal_sign.
Qed.

Lemma revenue_cells_no_minus_witness :
  Number.below_zero (Number.of_Z 2000) = false
  /\ Number.shows_minus (teacherShare (Number.of_Z 2000)) = false
  /\ Number.shows_minus (platformShare (Number.of_Z 2000)) = false.
Proof.
  split; [ reflexivity | ].
  exact (revenue_cells_no_minus (Number.of_Z 2000) eq_refl).
Defined.
